(** * Storefront analyzer (src/main.py): shallow embedding and verified properties

    The pipeline of [analyze_seller] is embedded as a program over four
    remote operations (catalog search, batch detail query, category lookup,
    eligibility POST).  A program is a finite tree of remote calls; running
    it against the providers yields the Python-level outcome (a value or a
    raised exception) and the ordered list of remote calls that were issued.

    Conventions of the embedding:
    - Python [int] is [Z]; [str] is [string], the UTF-8 bytes of the text;
      dicts with a fixed set of keys are records, an [option] field being a
      key that may be missing;
    - the two floats of the source, [cents / 100] and [rating / 10.0], are
      kept as the integers they are computed from, and printed with the
      digits their [.2f] and [.1f] formats produce;
    - an exception is a value of [exn]; code that may raise returns a
      [result]. *)

From Stdlib Require Import ZArith String Ascii List Lia.
From Stdlib Require Import DecimalString DecimalPos DecimalZ.
From stdpp Require Import base option list gmap strings.

Open Scope string_scope.
Open Scope Z_scope.

(** ** Python primitives used by the source *)

Module Py.

(** [str(n)] for an [int]. *)
Definition str (z : Z) : string := NilZero.string_of_int (Z.to_int z).

(** Truthiness of an [Optional[int]]: [None] and [0] are falsy. *)
Definition truthy_int (o : option Z) : bool :=
  match o with
  | Some z => negb (z =? 0)
  | None => false
  end.

(** Truthiness of an optional string: [None] and [''] are falsy. *)
Definition truthy_str (o : option string) : bool :=
  match o with
  | Some EmptyString => false
  | Some _ => true
  | None => false
  end.

(** The capital of an ASCII letter; every other byte is kept. *)
Definition upper_char (c : ascii) : ascii :=
  let n := nat_of_ascii c in
  if ((97 <=? n) && (n <=? 122))%nat then ascii_of_nat (n - 32) else c.

(** The upper-case expansions of the ligatures U+FB00 to U+FB06, by the
    last byte of their UTF-8 form EF AC 80 .. EF AC 86. *)
Definition ligature (c : ascii) : option string :=
  match nat_of_ascii c with
  | 128%nat => Some "FF"
  | 129%nat => Some "FI"
  | 130%nat => Some "FL"
  | 131%nat => Some "FFI"
  | 132%nat => Some "FFL"
  | 133%nat => Some "ST"
  | 134%nat => Some "ST"
  | _ => None
  end.

(** [str.upper()] on the UTF-8 text.  ASCII letters are capitalised; the ten
    characters outside ASCII whose upper-case form is ASCII are expanded:
    U+00DF (C3 9F) to SS, U+0131 (C4 B1) to I, U+017F (C5 BF) to S and the
    ligatures U+FB00 to U+FB06.  Every other character is kept as it is;
    its upper-case form in Python is not ASCII either, so the result is
    Python's whenever Python's result is ASCII, and is not ASCII
    otherwise. *)
Fixpoint upper (s : string) : string :=
  match s with
  | EmptyString => EmptyString
  | String c s1 =>
      match s1 with
      | EmptyString => String (upper_char c) EmptyString
      | String c1 s2 =>
          if Ascii.eqb c "195" && Ascii.eqb c1 "159" then "SS" +:+ upper s2
          else if Ascii.eqb c "196" && Ascii.eqb c1 "177" then "I" +:+ upper s2
          else if Ascii.eqb c "197" && Ascii.eqb c1 "191" then "S" +:+ upper s2
          else
            match s2 with
            | EmptyString => String (upper_char c) (upper s1)
            | String c2 s3 =>
                if Ascii.eqb c "239" && Ascii.eqb c1 "172" then
                  match ligature c2 with
                  | Some e => e +:+ upper s3
                  | None => String (upper_char c) (upper s1)
                  end
                else String (upper_char c) (upper s1)
            end
      end
  end.

(** [s.split(',')[0]]: the text before the first comma. *)
Fixpoint split_comma_first (s : string) : string :=
  match s with
  | EmptyString => EmptyString
  | String c s' =>
      if Ascii.eqb c ","%char then EmptyString
      else String c (split_comma_first s')
  end.

(** A byte 10xxxxxx, which continues a UTF-8 character. *)
Definition is_continuation (c : ascii) : bool :=
  let n := nat_of_ascii c in ((128 <=? n) && (n <? 192))%nat.

(** [s[:n]] for a string and [n >= 0]: the first [n] characters of the
    UTF-8 text, each with its continuation bytes. *)
Fixpoint prefix (n : nat) (s : string) : string :=
  match s with
  | EmptyString => EmptyString
  | String c s' =>
      if is_continuation c then String c (prefix n s')
      else
        match n with
        | O => EmptyString
        | S n' => String c (prefix n' s')
        end
  end.

(** [l[:n]] for a list; a negative bound counts from the end. *)
Definition slice_to {A} (n : Z) (l : list A) : list A :=
  if 0 <=? n then take (Z.to_nat n) l
  else take (length l - Z.to_nat (- n)) l.

(** Digit grouping of [format(n, ',')], on the reversed digit list. *)
Fixpoint group3_rev (ds : list ascii) : list ascii :=
  match ds with
  | a :: b :: c :: ((_ :: _) as rest) =>
      a :: b :: c :: ","%char :: group3_rev rest
  | _ => ds
  end.

Definition sign (z : Z) : string := if z <? 0 then "-" else "".

(** [f"{n:,}"] for an [int]. *)
Definition format_grouped (z : Z) : string :=
  sign z +:+
  string_of_list_ascii
    (rev (group3_rev (rev (list_ascii_of_string (str (Z.abs z)))))).

Definition pad2 (z : Z) : string :=
  if z <? 10 then "0" +:+ str z else str z.

(** [f"{c / 100:.2f}"] for an [int] number of cents [c].  The float
    quotient prints exactly these digits for magnitudes below 2^52. *)
Definition format_cents_2f (c : Z) : string :=
  sign c +:+ str (Z.abs c / 100) +:+ "." +:+ pad2 (Z.abs c mod 100).

(** [f"{r / 10.0:.1f}"] for an [int] rating [r] in tenths (same range). *)
Definition format_tenths_1f (r : Z) : string :=
  sign r +:+ str (Z.abs r / 10) +:+ "." +:+ str (Z.abs r mod 10).

(** [repr] of a list of plain strings, as [f"{list(d.keys())}"] prints it. *)
Fixpoint join (sep : string) (l : list string) : string :=
  match l with
  | [] => ""
  | [x] => x
  | x :: rest => x +:+ sep +:+ join sep rest
  end.

Definition repr_str_list (l : list string) : string :=
  "[" +:+ join ", " (map (fun k => "'" +:+ k +:+ "'") l) +:+ "]".

End Py.

(** ** Exceptions and results *)

Inductive exn : Type :=
| Exception (msg : string)        (* raised inside a provider library *)
| IndexError (msg : string)
| AttributeError (msg : string)
| RequestException (msg : string) (* requests.RequestException *)
| RuntimeError (msg : string)
| HTTPException (status_code : Z) (detail : string).

(** [str(e)] *)
Definition str_exn (e : exn) : string :=
  match e with
  | Exception m | IndexError m | AttributeError m
  | RequestException m | RuntimeError m => m
  | HTTPException _ d => d
  end.

Inductive result (A : Type) : Type :=
| Ok (a : A)
| Raise (e : exn).
Arguments Ok {A} a.
Arguments Raise {A} e.

Definition rbind {A B} (r : result A) (f : A -> result B) : result B :=
  match r with
  | Ok a => f a
  | Raise e => Raise e
  end.

Notation "'let?' x ':=' e 'in' k" := (rbind e (fun x => k))
  (at level 10, x name, e at level 100, k at level 200).

(** ** Configuration (module-level constants of the source) *)

Definition MAX_PRODUCTS : Z := 30.

(** Insertion-ordered: the key order shows in the validation message. *)
Definition DOMAIN_MAP : list (string * string) :=
  [("US", "US"); ("UK", "UK"); ("DE", "DE"); ("FR", "FR"); ("JP", "JP"); ("CA", "CA")].

Definition MARKETPLACE_NUMERIC : gmap string Z :=
  list_to_map [("US", 1); ("UK", 3); ("DE", 4); ("FR", 5); ("JP", 6); ("CA", 7)].

(** The request model; [req_category_id] is the [Optional[int]] field. *)
Record SellerRequest : Type := {
  req_seller_id : string;
  req_marketplace : string;
  req_category_id : option Z
}.

(** ** Provider data

    Snapshots are typed by the provider's schema: price, rank, rating and
    category signals are integers, names are strings.  An [option] field is
    a key that may be missing from the snapshot; a key present with a null
    or differently typed value is outside these types. *)

Record raw_stats : Type := {
  current : option (list Z)
}.

Record raw_product : Type := {
  snap_asin : option string;
  snap_stats : option raw_stats;
  snap_image : option string;
  snap_imagesCSV : option string;
  snap_rating : option Z;
  snap_reviewCount : option Z;
  snap_title : option string;
  snap_brand : option string;
  snap_rootCategory : option Z
}.

(** Value stored under ['category_id']: the root category, or the ['N/A']
    default of [product.get('rootCategory', 'N/A')]. *)
Inductive category_ref : Type :=
| CatId (z : Z)
| CatNA.

Definition str_category (cid : category_ref) : string :=
  match cid with
  | CatId z => Py.str z
  | CatNA => "N/A"
  end.

(** The [details] dict built for one product.  [rating_value] holds the
    rating in tenths (the float [rating / 10.0] times ten). *)
Record product_details : Type := {
  asin : string;
  title : string;
  brand : string;
  category_id : category_ref;
  category_name : option string;
  sales_rank : Z;
  rating_value : Z;
  review_count : Z;
  rating_display : string;
  current_price : string;
  image_url : option string
}.

(** ** Attribute extraction (body of the loop in [get_product_details_batch]) *)

(** [l[i]] on a Python list. *)
Definition py_index (l : list Z) (i : nat) : result Z :=
  match l !! i with
  | Some v => Ok v
  | None => Raise (IndexError "list index out of range")
  end.

(** Lines 123-127: the [if]/[elif] chain over slots 0, 13, 7, 1. *)
Definition extract_price_cents (current_data : list Z) : result Z :=
  let? v0 := py_index current_data 0 in
  if 0 <? v0 then Ok v0 else
  let? v13 := py_index current_data 13 in
  if 0 <? v13 then Ok v13 else
  let? v7 := py_index current_data 7 in
  if 0 <? v7 then Ok v7 else
  let? v1 := py_index current_data 1 in
  if 0 <? v1 then Ok v1 else
  Ok 0.

(** Line 129: [cents / 100 if cents > 0 else None], kept in cents. *)
Definition price_of_cents (current_price_cents : Z) : option Z :=
  if 0 <? current_price_cents then Some current_price_cents else None.

(** Line 144: [f"${current_price:.2f}" if current_price else 'N/A']. *)
Definition format_price (current_price : option Z) : string :=
  match current_price with
  | Some c => "$" +:+ Py.format_cents_2f c
  | None => "N/A"
  end.

(** Line 130: slot 3, guarded by length and positivity. *)
Definition extract_sales_rank (current_data : list Z) : option Z :=
  if bool_decide (3 < length current_data)%nat then
    match current_data !! 3%nat with
    | Some v => if 0 <? v then Some v else None
    | None => None
    end
  else None.

(** Lines 115-120. *)
Definition extract_image_url (product : raw_product) : option string :=
  if Py.truthy_str (snap_image product) then snap_image product
  else if Py.truthy_str (snap_imagesCSV product) then
    (fun csv => "https://m.media-amazon.com/images/I/" +:+ Py.split_comma_first csv)
      <$> snap_imagesCSV product
  else None.

(** Lines 111-112: [product.get('stats', {}).get('current', [0]*25)]. *)
Definition current_data_of (product : raw_product) : list Z :=
  match snap_stats product with
  | Some stats => default (replicate 25 0) (current stats)
  | None => replicate 25 0
  end.

(** One iteration of the loop, lines 108-147: [None] is [continue]. *)
Definition extract_details (product : raw_product) : result (option product_details) :=
  match snap_asin product with
  | None => Ok None
  | Some a =>
      let current_data := current_data_of product in
      let image_url := extract_image_url product in
      let? current_price_cents := extract_price_cents current_data in
      let current_price := price_of_cents current_price_cents in
      let sales_rank := extract_sales_rank current_data in
      let rating_value := default 0 (snap_rating product) in
      let review_count := default 0 (snap_reviewCount product) in
      Ok (Some {|
        asin := a;
        title := default "N/A" (snap_title product);
        brand := default "N/A" (snap_brand product);
        category_id := from_option CatId CatNA (snap_rootCategory product);
        category_name := None;
        sales_rank := default 0 sales_rank;
        rating_value := rating_value;
        review_count := review_count;
        rating_display :=
          Py.format_tenths_1f rating_value +:+ "/5 (" +:+
          Py.format_grouped review_count +:+ " reviews)";
        current_price := format_price current_price;
        image_url := image_url
      |})
  end.

(** The [for product in products] loop, stopping at the first exception. *)
Fixpoint extract_all (products : list raw_product) : result (list product_details) :=
  match products with
  | [] => Ok []
  | product :: rest =>
      let? d := extract_details product in
      let? ds := extract_all rest in
      Ok (match d with Some x => x :: ds | None => ds end)
  end.

(** ** Eligibility data *)

(** One element of the eligibility payload: a JSON object with its ['asin']
    (when it is a string) and ['isEligible'] entries, or a value of another
    JSON type, on which [.get] raises [AttributeError]. *)
Inductive eligibility_item : Type :=
| ItemDict (item_asin : option string) (item_isEligible : option bool)
| ItemOther (type_name : string).

(** The decoded body [resp.json()]: a list, or any other JSON value. *)
Inductive eligibility_body : Type :=
| BodyList (items : list eligibility_item)
| BodyOther.

(** A response of the eligibility provider; [json] is the decoded body,
    taken to be decodable. *)
Record http_response : Type := {
  status_code : Z;
  text : string;
  json : eligibility_body
}.

(** The dict returned by [check_seller_eligibility], by its possible keys. *)
Record eligibility_data : Type := {
  success : option bool;
  data : option eligibility_body;
  error : option string;
  details : option string
}.

Record verdict : Type := {
  status : string;
  reason : string
}.

Definition verdict_eligible : verdict :=
  {| status := "✅ Eligible"; reason := "Seller is eligible to sell this product" |}.
Definition verdict_restricted : verdict :=
  {| status := "❌ Restricted"; reason := "Seller is not eligible to sell this product" |}.
Definition verdict_not_found : verdict :=
  {| status := "⚠️ Not Found"; reason := "ASIN not found in eligibility results" |}.
Definition status_api_error : string := "❓ API Error".
Definition status_parse_error : string := "🔧 Parse Error".

(** Lines 166-172: the [for item in data] loop; [Ok None] is falling out of
    the loop without a [return]. *)
Fixpoint scan_items (items : list eligibility_item) (asin : string) : result (option verdict) :=
  match items with
  | [] => Ok None
  | ItemOther t :: _ =>
      Raise (AttributeError ("'" +:+ t +:+ "' object has no attribute 'get'"))
  | ItemDict a is_eligible :: rest =>
      if bool_decide (a = Some asin) then
        Ok (Some (if default false is_eligible then verdict_eligible
                  else verdict_restricted))
      else scan_items rest asin
  end.

Definition is_empty_dict (d : eligibility_data) : bool :=
  match success d, data d, error d, details d with
  | None, None, None, None => true
  | _, _, _, _ => false
  end.

(** Lines 165-178: the body of the [try]. *)
Definition parse_eligibility_body (d : eligibility_data) (asin : string) : result verdict :=
  match data d with
  | Some (BodyList items) =>
      let? found := scan_items items asin in
      Ok (default verdict_not_found found)
  | _ =>
      if negb (default true (success d)) then
        let error_msg := default "OptiSage API failed" (error d) in
        let details := default "" (details d) in
        Ok {| status := status_api_error;
              reason := error_msg +:+ ": " +:+ Py.prefix 50 details +:+ "..." |}
      else Ok verdict_not_found
  end.

Definition parse_eligibility_result (d : eligibility_data) (asin : string) : verdict :=
  if is_empty_dict d then
    {| status := status_api_error; reason := "No eligibility data received" |}
  else
    match parse_eligibility_body d asin with
    | Ok v => v
    | Raise e =>
        {| status := status_parse_error;
           reason := "Failed to parse eligibility: " +:+ str_exn e |}
    end.

(** ** Remote operations and programs over them *)

Record product_parms : Type := {
  sellerIds : string;
  pageSize : Z;
  category : option string
}.

Record eligibility_payload : Type := {
  amazon_seller_id : string;
  marketplace_id : Z;
  asins : list string
}.

(** A category object of the lookup response, by its ['name'] entry. *)
Record category_node : Type := {
  name : option string
}.

(** The four remote operations, with the arguments the source passes (the
    constant JSON headers of the POST are left out). *)
Inductive call : Type :=
| Keepa_product_finder (keepa_key : string) (parms : product_parms) (domain : string)
| Keepa_query (keepa_key : string) (asins : list string) (domain : string) (stats : Z)
| Keepa_category_lookup (keepa_key : string) (category_id : Z) (domain : string)
| Requests_post (url : string) (authorization : string)
    (payload : eligibility_payload) (timeout : Z).

(** What a remote operation does: it returns, or raises with a message (for
    [Requests_post] the raised exception is a [requests.RequestException]). *)
Inductive remote (A : Type) : Type :=
| Returned (a : A)
| Failed (msg : string).
Arguments Returned {A} a.
Arguments Failed {A} msg.

Definition response (c : call) : Type :=
  match c with
  | Keepa_product_finder _ _ _ => remote (option (list string))
  | Keepa_query _ _ _ _ => remote (list raw_product)
  | Keepa_category_lookup _ _ _ => remote (gmap string category_node)
  | Requests_post _ _ _ _ => remote http_response
  end.

(** The providers: one response per call. *)
Definition handler : Type := forall c : call, response c.

Inductive prog (A : Type) : Type :=
| Ret (a : A)
| Vis (c : call) (k : response c -> prog A).
Arguments Ret {A} a.
Arguments Vis {A} c k.

Fixpoint pbind {A B} (p : prog A) (f : A -> prog B) : prog B :=
  match p with
  | Ret a => f a
  | Vis c k => Vis c (fun r => pbind (k r) f)
  end.

(** Outcome of a program against the providers [h]. *)
Fixpoint eval {A} (h : handler) (p : prog A) : A :=
  match p with
  | Ret a => a
  | Vis c k => eval h (k (h c))
  end.

(** The remote calls a program issues against [h], in order. *)
Fixpoint trace {A} (h : handler) (p : prog A) : list call :=
  match p with
  | Ret _ => []
  | Vis c k => c :: trace h (k (h c))
  end.

(** Programs that may raise. *)
Definition M (A : Type) : Type := prog (result A).

Definition ret {A} (a : A) : M A := Ret (Ok a).
Definition raise {A} (e : exn) : M A := Ret (Raise e).
Definition lift {A} (r : result A) : M A := Ret r.

Definition mbind {A B} (m : M A) (f : A -> M B) : M B :=
  pbind m (fun r => match r with Ok a => f a | Raise e => Ret (Raise e) end).

Notation "'let*' x ':=' e 'in' k" := (mbind e (fun x => k))
  (at level 10, x name, e at level 100, k at level 200).

(** [try: body / except <class> as e: on_exn e]; [catches] is the class test. *)
Definition try_except {A} (body : M A) (catches : exn -> bool) (on_exn : exn -> M A) : M A :=
  pbind body (fun r =>
    match r with
    | Ok a => Ret (Ok a)
    | Raise e => if catches e then on_exn e else Ret (Raise e)
    end).

Definition any_exception (e : exn) : bool := true.

Definition is_RuntimeError (e : exn) : bool :=
  match e with
  | RuntimeError _ => true
  | _ => false
  end.

(** A remote call as a program step: a provider failure is a raised exception. *)
Definition of_remote {A} (r : remote A) : result A :=
  match r with
  | Returned a => Ok a
  | Failed msg => Raise (Exception msg)
  end.

Definition product_finder (keepa_key : string) (parms : product_parms) (domain : string)
  : M (option (list string)) :=
  Vis (Keepa_product_finder keepa_key parms domain) (fun r => Ret (of_remote r)).

Definition query (keepa_key : string) (asins : list string) (domain : string) (stats : Z)
  : M (list raw_product) :=
  Vis (Keepa_query keepa_key asins domain stats) (fun r => Ret (of_remote r)).

Definition category_lookup (keepa_key : string) (category_id : Z) (domain : string)
  : M (gmap string category_node) :=
  Vis (Keepa_category_lookup keepa_key category_id domain) (fun r => Ret (of_remote r)).

Definition requests_post (url authorization : string) (payload : eligibility_payload)
    (timeout : Z) : M http_response :=
  Vis (Requests_post url authorization payload timeout)
    (fun r => Ret (match r with
                   | Returned resp => Ok resp
                   | Failed msg => Raise (RequestException msg)
                   end)).

Definition is_RequestException (e : exn) : bool :=
  match e with
  | RequestException _ => true
  | _ => false
  end.

(** ** The helpers of the source *)

Definition base_url : string := "https://api-staging.optisage.ai".

(** [OptiSageAPI.check_seller_eligibility], lines 61-84. *)
Definition check_seller_eligibility (bearer_token seller_id : string)
    (asins : list string) (marketplace : string) : M eligibility_data :=
  match bearer_token with
  | EmptyString =>
      ret {| success := Some false; data := None;
             error := Some "No OptiSage token provided"; details := None |}
  | _ =>
      let url := base_url +:+ "/api/go-compare/seller-eligibility" in
      let payload :=
        {| amazon_seller_id := seller_id;
           marketplace_id := default 1 (MARKETPLACE_NUMERIC !! marketplace);
           asins := asins |} in
      try_except
        (let* resp := requests_post url ("Bearer " +:+ bearer_token) payload 30 in
         if status_code resp =? 200 then
           ret {| success := Some true; data := Some (json resp);
                  error := None; details := None |}
         else
           ret {| success := Some false; data := None;
                  error := Some ("API Error " +:+ Py.str (status_code resp));
                  details := Some (text resp) |})
        is_RequestException
        (fun e =>
           ret {| success := Some false; data := None;
                  error := Some ("Request failed: " +:+ str_exn e);
                  details := None |})
  end.

(** [get_seller_asins], lines 87-98. *)
Definition get_seller_asins (keepa_key seller_id domain : string) (max_asins : Z)
    (category_id : option Z) : M (list string) :=
  try_except
    (let product_parms :=
       {| sellerIds := seller_id; pageSize := max_asins;
          category := Py.str <$> category_id |} in
     let* asins := product_finder keepa_key product_parms domain in
     ret (match asins with
          | Some ((_ :: _) as l) => Py.slice_to max_asins l
          | _ => []
          end))
    any_exception
    (fun e => raise (RuntimeError ("ASIN fetch error: " +:+ str_exn e))).

(** [get_product_details_batch], lines 100-150. *)
Definition get_product_details_batch (keepa_key : string) (asins : list string)
    (domain : string) : M (list product_details) :=
  match asins with
  | [] => ret []
  | _ =>
      try_except
        (let* products := query keepa_key asins domain 90 in
         lift (extract_all products))
        any_exception
        (fun e => raise (RuntimeError ("Product details error: " +:+ str_exn e)))
  end.

(** [get_category_name], lines 152-159; the bare [except:] catches all. *)
Definition get_category_name (keepa_key : string) (category_id : Z) (domain : string)
  : M string :=
  try_except
    (let* categories := category_lookup keepa_key category_id domain in
     let category_obj := categories !! Py.str category_id in
     ret (match category_obj with
          | Some obj => default "Unknown Category" (name obj)
          | None => "Unknown Category"
          end))
    any_exception
    (fun _ => ret "Category Lookup Failed").

(** ** The endpoint *)

Inductive filter_echo : Type :=
| EchoId (z : Z)
| EchoNone.   (* the string 'None' *)

Record formatted_product : Type := {
  index : Z;
  ASIN : string;
  Title : string;
  Brand : string;
  Category : option string;
  SalesRank : Z;
  Velocity : string;
  Eligibility : string;
  Comment : string;
  Rating : string;
  Reviews : string;
  Price : string;
  ImageURL : option string
}.

Record analysis_result : Type := {
  Seller : string;
  Marketplace : string;
  Filter_Category_ID : filter_echo;
  Total_Products : Z;
  Products : list formatted_product
}.

Definition velocity_fast : string := "🚀 YES (< 50K)".
Definition velocity_slow : string := "SLOW (> 50K)".

Definition set_category_name (p : product_details) (category_name : string)
  : product_details :=
  {| asin := asin p; title := title p; brand := brand p;
     category_id := category_id p; category_name := Some category_name;
     sales_rank := sales_rank p; rating_value := rating_value p;
     review_count := review_count p; rating_display := rating_display p;
     current_price := current_price p; image_url := image_url p |}.

(** Line 189. *)
Definition requested_category_id_str (req : SellerRequest) : option string :=
  if Py.truthy_int (req_category_id req) then Py.str <$> req_category_id req
  else None.

(** Line 234: the strict filter test on one record. *)
Definition passes_filter (requested : option string) (p : product_details) : bool :=
  match requested with
  | None => true
  | Some r => bool_decide (str_category (category_id p) = r)
  end.

(** Lines 254-270: one entry of the response.  Every key read with
    [p.get(key, default)] is always present in [p], so no default applies. *)
Definition format_product (d : eligibility_data) (idx : nat) (p : product_details)
  : formatted_product :=
  let parsed := parse_eligibility_result d (asin p) in
  {| index := Z.of_nat idx + 1;
     ASIN := asin p;
     Title := title p;
     Brand := brand p;
     Category := category_name p;
     SalesRank := sales_rank p;
     Velocity := if sales_rank p <? 50000 then velocity_fast else velocity_slow;
     Eligibility := status parsed;
     Comment := reason parsed;
     Rating := rating_display p;
     Reviews := Py.str (review_count p);
     Price := current_price p;
     ImageURL := image_url p |}.

(** Line 186: [marketplace in DOMAIN_MAP]. *)
Definition marketplace_supported (marketplace : string) : bool :=
  bool_decide (marketplace ∈ DOMAIN_MAP.*1).

(** Line 187: the detail of the validation failure. *)
Definition detail_unsupported (req : SellerRequest) : string :=
  "Unsupported marketplace '" +:+ req_marketplace req +:+
  "'. Use one of: " +:+ Py.repr_str_list (DOMAIN_MAP.*1).

(** Lines 204-205: the detail of the not-found raised after discovery. *)
Definition detail_no_asins (req : SellerRequest) : string :=
  let filter_detail :=
    match req_category_id req with
    | Some c => if negb (c =? 0) then " in Category ID " +:+ Py.str c else ""
    | None => ""
    end in
  "No ASINs found for this seller" +:+ filter_detail +:+ ".".

(** Line 239: the detail of the not-found raised after strict filtering;
    [f"{req.category_id}"] prints [None] as the text None. *)
Definition detail_no_match (req : SellerRequest) : string :=
  "No products matched the Seller ID and the strict filter for Category ID "
  +:+ from_option Py.str "None" (req_category_id req) +:+ " after fetching.".

Section Pipeline.

(** The two credentials read from the process environment at import. *)
Variables KEEPA_API_KEY OPTISAGE_TOKEN : string.

(** Lines 220-227: [if cid and cid != 'N/A'] with its [try]. *)
Definition resolve_category_name (marketplace : string) (cid : category_ref)
  : M string :=
  match cid with
  | CatId z =>
      if negb (z =? 0) then
        try_except (get_category_name KEEPA_API_KEY z marketplace)
          any_exception (fun _ => ret "Category lookup failed")
      else ret "Unknown"
  | CatNA => ret "Unknown"
  end.

(** Lines 216-235: category naming and strict filtering, in input order. *)
Fixpoint strict_filter (requested : option string) (marketplace : string)
    (products : list product_details) : M (list product_details) :=
  match products with
  | [] => ret []
  | p :: rest =>
      let cid := category_id p in
      let* category_name := resolve_category_name marketplace cid in
      let p := set_category_name p category_name in
      let* kept := strict_filter requested marketplace rest in
      ret (if passes_filter requested p then p :: kept else kept)
  end.

(** Lines 192-201: discovery, with its failure mapped to a 502. *)
Definition discover (req : SellerRequest) : M (list string) :=
  try_except
    (get_seller_asins KEEPA_API_KEY (req_seller_id req)
       (Py.upper (req_marketplace req)) MAX_PRODUCTS (req_category_id req))
    is_RuntimeError
    (fun e => raise (HTTPException 502
                ("Keepa ASIN Fetch Error: " +:+ str_exn e))).

(** Lines 208-211: enrichment, with its failure mapped to a 502. *)
Definition enrich (req : SellerRequest) (asins : list string)
  : M (list product_details) :=
  try_except
    (get_product_details_batch KEEPA_API_KEY asins
       (Py.upper (req_marketplace req)))
    is_RuntimeError
    (fun e => raise (HTTPException 502
                ("Keepa Product Details Error: " +:+ str_exn e))).

(** Lines 185-239: validation, discovery, enrichment, strict filtering. *)
Definition final_products (req : SellerRequest) : M (list product_details) :=
  let marketplace := Py.upper (req_marketplace req) in
  if negb (marketplace_supported marketplace) then
    raise (HTTPException 400 (detail_unsupported req))
  else
  let requested := requested_category_id_str req in
  let* asins := discover req in
  match asins with
  | [] => raise (HTTPException 404 (detail_no_asins req))
  | _ =>
  let* products := enrich req asins in
  let* final := strict_filter requested marketplace products in
  match final, requested with
  | [], Some _ => raise (HTTPException 404 (detail_no_match req))
  | _, _ => ret final
  end
  end.

(** Line 275: the echoed filter. *)
Definition filter_category_echo (req : SellerRequest) : filter_echo :=
  match req_category_id req with
  | Some c => if negb (c =? 0) then EchoId c else EchoNone
  | None => EchoNone
  end.

(** Lines 241-278: one eligibility call, then the response. *)
Definition respond (req : SellerRequest) (final : list product_details)
  : M analysis_result :=
  let marketplace := Py.upper (req_marketplace req) in
  let filtered_asins := map asin final in
  let* eligibility_data :=
    check_seller_eligibility OPTISAGE_TOKEN (req_seller_id req)
      filtered_asins marketplace in
  let formatted := imap (format_product eligibility_data) final in
  ret {| Seller := req_seller_id req;
         Marketplace := marketplace;
         Filter_Category_ID := filter_category_echo req;
         Total_Products := Z.of_nat (length formatted);
         Products := formatted |}.

(** [analyze_seller], lines 184-278. *)
Definition analyze_seller (req : SellerRequest) : M analysis_result :=
  let* final := final_products req in
  respond req final.

End Pipeline.

(** ** The interface's words, for comparison with the code *)

(** The fixed marketplace set of the request interface. *)
Definition marketplace_codes : list string :=
  ["US"; "UK"; "DE"; "FR"; "JP"; "CA"].

Definition lower_char (c : ascii) : ascii :=
  let n := nat_of_ascii c in
  if ((65 <=? n) && (n <=? 90))%nat then ascii_of_nat (n + 32) else c.

(** The written forms of a capital letter: the capital, the small letter,
    and for S and I also the long s (U+017F) and the dotless i (U+0131),
    the two other letters of which they are the capital. *)
Definition letter_forms (c : ascii) : list string :=
  ([String c ""; String (lower_char c) ""] ++
   (if Ascii.eqb c "S" then ["ſ"] else []) ++
   (if Ascii.eqb c "I" then ["ı"] else []))%list.

(** The spellings of a code of capital letters up to letter case: each
    letter in any of its forms. *)
Fixpoint case_variants (code : string) : list string :=
  match code with
  | EmptyString => [""]
  | String c rest =>
      flat_map (fun f => map (fun v => f +:+ v) (case_variants rest))
               (letter_forms c)
  end.

(** The eligibility provider is unavailable to the client: the credential is
    missing, or every POST fails in transport or answers with a status other
    than 200. *)
Definition eligibility_unavailable (token : string) (h : handler) : Prop :=
  token = "" \/
  forall url authorization payload timeout,
    match h (Requests_post url authorization payload timeout) with
    | Returned resp => status_code resp <> 200
    | Failed _ => True
    end.

(** The three verdicts of the data model, and the verdict a status label
    stands for: every label other than the two decided ones is Unknown. *)
Inductive verdict_kind : Type :=
| Eligible
| Restricted
| Unknown.

Definition kind_of_status (s : string) : verdict_kind :=
  if String.eqb s (status verdict_eligible) then Eligible
  else if String.eqb s (status verdict_restricted) then Restricted
  else Unknown.

(** The dict the client builds from a 200 response with decoded body [body]. *)
Definition success_data (body : eligibility_body) : eligibility_data :=
  {| success := Some true; data := Some body; error := None; details := None |}.

(** [item] is a payload object for exactly the identifier [a]. *)
Definition carries (a : string) (item : eligibility_item) : Prop :=
  exists e, item = ItemDict (Some a) e.

Definition is_object (item : eligibility_item) : Prop :=
  match item with
  | ItemDict _ _ => True
  | ItemOther _ => False
  end.

(** No payload object of the response is for the identifier [a]. *)
Definition absent_from (a : string) (body : eligibility_body) : Prop :=
  match body with
  | BodyList items => forall item, In item items -> ~ carries a item
  | BodyOther => True
  end.

Definition all_objects (body : eligibility_body) : Prop :=
  match body with
  | BodyList items => Forall is_object items
  | BodyOther => True
  end.

(** The first strictly positive value among price signals listed in
    priority order. *)
Definition first_positive (signals : list Z) : option Z :=
  List.find (fun v => 0 <? v) signals.

(** ** Sample providers and requests *)

Definition snapshot (a : string) (root : Z) (cur : option (list Z)) : raw_product :=
  {| snap_asin := Some a;
     snap_stats := Some {| current := cur |};
     snap_image := None; snap_imagesCSV := None;
     snap_rating := None; snap_reviewCount := None;
     snap_title := None; snap_brand := None;
     snap_rootCategory := Some root |}.

Definition request (m : string) (c : option Z) : SellerRequest :=
  {| req_seller_id := "S1"; req_marketplace := m; req_category_id := c |}.

(** Discovery finds A1 and A2, of root categories 100 and 200; the
    eligibility provider answers with status [st]. *)
Definition two_products (st : Z) : handler := fun c =>
  match c return response c with
  | Keepa_product_finder _ _ _ => Returned (Some ["A1"; "A2"])
  | Keepa_query _ _ _ _ =>
      Returned [snapshot "A1" 100 None; snapshot "A2" 200 None]
  | Keepa_category_lookup _ z _ =>
      Returned {[ Py.str z := {| name := Some "Books" |} ]}
  | Requests_post _ _ _ _ =>
      Returned {| status_code := st; text := "";
                  json := BodyList [ItemDict (Some "A1") (Some true);
                                    ItemDict (Some "A2") None] |}
  end.

(** A catalog provider that honours its category parameter: A1 without one,
    nothing inside any given category. *)
Definition category_sensitive : handler := fun c =>
  match c return response c with
  | Keepa_product_finder _ parms _ =>
      match category parms with
      | None => Returned (Some ["A1"])
      | Some _ => Returned (Some [])
      end
  | Keepa_query _ _ _ _ => Returned [snapshot "A1" 100 None]
  | Keepa_category_lookup _ _ _ => Failed "timeout"
  | Requests_post _ _ _ _ => Failed "connection refused"
  end.

(** The same request without its category id. *)
Definition without_category (req : SellerRequest) : SellerRequest :=
  {| req_seller_id := req_seller_id req;
     req_marketplace := req_marketplace req;
     req_category_id := None |}.

(** The details extracted from [snapshot a root None]. *)
Definition default_details (a : string) (cid : category_ref) : product_details :=
  {| asin := a; title := "N/A"; brand := "N/A"; category_id := cid;
     category_name := None; sales_rank := 0; rating_value := 0;
     review_count := 0; rating_display := "0.0/5 (0 reviews)";
     current_price := "N/A"; image_url := None |}.

(** Price signals (0, 0, 0, 5) in the priority order of slots 0, 13, 7, 1. *)
Definition signals_0005 : list Z := ([0; 5] ++ replicate 23 0)%list.

(** The detail provider returns a first snapshot whose signal list stops
    after one slot. *)
Definition short_signals : handler := fun c =>
  match c return response c with
  | Keepa_product_finder _ _ _ => Returned (Some ["A1"; "A2"])
  | Keepa_query _ _ _ _ =>
      Returned [snapshot "A1" 100 (Some [0]); snapshot "A2" 100 None]
  | Keepa_category_lookup _ _ _ => Failed "timeout"
  | Requests_post _ _ _ _ => Failed "connection refused"
  end.

(** ** Process start-up and further vocabulary *)

(** Lines 19-26: the two credentials are read from the environment (after
    [load_dotenv]); a missing or empty one aborts the import. *)
Definition load_credentials (getenv : string -> option string) : result (string * string) :=
  let KEEPA_API_KEY := getenv "KEEPA_API_KEY" in
  let OPTISAGE_TOKEN := getenv "OPTISAGE_TOKEN" in
  if negb (Py.truthy_str KEEPA_API_KEY) then
    Raise (RuntimeError "KEEPA_API_KEY environment variable is required")
  else if negb (Py.truthy_str OPTISAGE_TOKEN) then
    Raise (RuntimeError "OPTISAGE_TOKEN environment variable is required")
  else Ok (default "" KEEPA_API_KEY, default "" OPTISAGE_TOKEN).

(** The category lookups the naming loop issues for a list of records: one
    per record with a non-zero root category, in order. *)
Definition lookup_calls (key marketplace : string) (products : list product_details)
  : list call :=
  flat_map
    (fun p => match category_id p with
              | CatId z =>
                  if negb (z =? 0) then [Keepa_category_lookup key z marketplace]
                  else []
              | CatNA => []
              end)
    products.

(** The record's root category is the one the request asks for (every record
    when the request has no category id, or the id 0). *)
Definition category_matches (req : SellerRequest) (p : product_details) : bool :=
  match req_category_id req with
  | None => true
  | Some c =>
      (c =? 0) ||
      match category_id p with
      | CatId z => z =? c
      | CatNA => false
      end
  end.

(** The POST of the eligibility client for a request and a list of
    identifiers. *)
Definition eligibility_call (token : string) (req : SellerRequest) (asins : list string)
  : call :=
  Requests_post
    "https://api-staging.optisage.ai/api/go-compare/seller-eligibility"
    ("Bearer " +:+ token)
    {| amazon_seller_id := req_seller_id req;
       marketplace_id :=
         default 1 (MARKETPLACE_NUMERIC !! Py.upper (req_marketplace req));
       asins := asins |}
    30.

Definition is_eligibility_call (c : call) : Prop :=
  match c with
  | Requests_post _ _ _ _ => True
  | _ => False
  end.

(** [s] with its commas removed. *)
Fixpoint remove_commas (s : string) : string :=
  match s with
  | EmptyString => EmptyString
  | String c s' =>
      if Ascii.eqb c ","%char then remove_commas s'
      else String c (remove_commas s')
  end.

(** [s] holds no comma. *)
Fixpoint comma_free (s : string) : bool :=
  match s with
  | EmptyString => true
  | String c s' => negb (Ascii.eqb c ","%char) && comma_free s'
  end.

(** The two-product providers with the catalog search timing out. *)
Definition catalog_down : handler := fun c =>
  match c return response c with
  | Keepa_product_finder _ _ _ => Failed "timeout"
  | Keepa_query k a d st => two_products 200 (Keepa_query k a d st)
  | Keepa_category_lookup k z d => two_products 200 (Keepa_category_lookup k z d)
  | Requests_post u a p t => two_products 200 (Requests_post u a p t)
  end.

(** Every character of [s] satisfies [f]. *)
Fixpoint all_chars (f : ascii -> bool) (s : string) : bool :=
  match s with
  | EmptyString => true
  | String c s' => f c && all_chars f s'
  end.

(** A decimal digit or the minus sign. *)
Definition is_decimal_char (c : ascii) : bool :=
  let n := nat_of_ascii c in
  ((48 <=? n) && (n <=? 57) || (n =? 45))%nat.

Definition not_comma (c : ascii) : bool := negb (Ascii.eqb c ","%char).

(** The integers 0 to 99. *)
Definition hundred : list Z := map Z.of_nat (seq 0 100).

(** The catalog provider answers with no list at all. *)
Definition catalog_null : handler := fun c =>
  match c return response c with
  | Keepa_product_finder _ _ _ => Returned None
  | Keepa_query k a d st => two_products 200 (Keepa_query k a d st)
  | Keepa_category_lookup k z d => two_products 200 (Keepa_category_lookup k z d)
  | Requests_post u a p t => two_products 200 (Requests_post u a p t)
  end.

(** * Properties *)

(** ** Running programs *)

Lemma eval_pbind {A B} (h : handler) (p : prog A) (f : A -> prog B) :
  eval h (pbind p f) = eval h (f (eval h p)).
Proof. induction p as [a | c k IH]; simpl; [reflexivity | apply IH]. Qed.

Lemma trace_pbind {A B} (h : handler) (p : prog A) (f : A -> prog B) :
  trace h (pbind p f) = (trace h p ++ trace h (f (eval h p)))%list.
Proof.
  induction p as [a | c k IH]; simpl; [reflexivity |].
  now rewrite IH.
Qed.

Lemma eval_mbind {A B} (h : handler) (m : M A) (f : A -> M B) :
  eval h (mbind m f) =
  match eval h m with
  | Ok a => eval h (f a)
  | Raise e => Raise e
  end.
Proof. unfold mbind. rewrite eval_pbind. now destruct (eval h m). Qed.

Lemma trace_mbind {A B} (h : handler) (m : M A) (f : A -> M B) :
  trace h (mbind m f) =
  (trace h m ++ match eval h m with
                | Ok a => trace h (f a)
                | Raise _ => []
                end)%list.
Proof. unfold mbind. rewrite trace_pbind. now destruct (eval h m). Qed.

Lemma eval_try_except {A} (h : handler) (body : M A) catches (handle : exn -> M A) :
  eval h (try_except body catches handle) =
  match eval h body with
  | Ok a => Ok a
  | Raise e => if catches e then eval h (handle e) else Raise e
  end.
Proof.
  unfold try_except. rewrite eval_pbind.
  destruct (eval h body) as [a | e]; [reflexivity |].
  now destruct (catches e).
Qed.

Lemma trace_try_except {A} (h : handler) (body : M A) catches (handle : exn -> M A) :
  trace h (try_except body catches handle) =
  (trace h body ++ match eval h body with
                   | Ok _ => []
                   | Raise e => if catches e then trace h (handle e) else []
                   end)%list.
Proof.
  unfold try_except. rewrite trace_pbind.
  destruct (eval h body) as [a | e]; [reflexivity |].
  now destruct (catches e).
Qed.

Lemma append_nil_l s : "" +:+ s = s.
Proof. reflexivity. Qed.

Lemma append_cons c s t : String c s +:+ t = String c (s +:+ t).
Proof. reflexivity. Qed.

(** ** The helpers, evaluated *)

Lemma eval_get_seller_asins h key seller domain n c :
  eval h (get_seller_asins key seller domain n c) =
  match h (Keepa_product_finder key
             {| sellerIds := seller; pageSize := n; category := Py.str <$> c |}
             domain) with
  | Returned (Some ((_ :: _) as l)) => Ok (Py.slice_to n l)
  | Returned _ => Ok []
  | Failed msg => Raise (RuntimeError ("ASIN fetch error: " +:+ msg))
  end.
Proof.
  unfold get_seller_asins. rewrite eval_try_except. simpl.
  destruct (h _) as [[[|x l]|]|msg]; reflexivity.
Qed.

Lemma trace_get_seller_asins h key seller domain n c :
  trace h (get_seller_asins key seller domain n c) =
  [Keepa_product_finder key
     {| sellerIds := seller; pageSize := n; category := Py.str <$> c |} domain].
Proof.
  unfold get_seller_asins. rewrite trace_try_except. simpl.
  destruct (h _) as [[[|x l]|]|msg]; reflexivity.
Qed.

Lemma eval_get_product_details_batch h key a asins domain :
  eval h (get_product_details_batch key (a :: asins) domain) =
  match h (Keepa_query key (a :: asins) domain 90) with
  | Returned products =>
      match extract_all products with
      | Ok ds => Ok ds
      | Raise e => Raise (RuntimeError ("Product details error: " +:+ str_exn e))
      end
  | Failed msg => Raise (RuntimeError ("Product details error: " +:+ msg))
  end.
Proof.
  unfold get_product_details_batch. rewrite eval_try_except. simpl.
  destruct (h _) as [products|msg]; simpl; [|reflexivity].
  destruct (extract_all products); reflexivity.
Qed.

Lemma eval_get_category_name h key z domain :
  exists n, eval h (get_category_name key z domain) = Ok n.
Proof.
  unfold get_category_name. rewrite eval_try_except. simpl.
  destruct (h _) as [categories|msg]; simpl; eauto.
Qed.

Lemma eval_resolve_category_name h key domain cid :
  exists n, eval h (resolve_category_name key domain cid) = Ok n.
Proof.
  destruct cid as [z|]; cbn [resolve_category_name];
    [|eexists; reflexivity].
  destruct (z =? 0); cbn [negb]; [eexists; reflexivity|].
  rewrite eval_try_except.
  destruct (eval_get_category_name h key z domain) as [n ->]. eauto.
Qed.

(** The eligibility client always returns a dict. *)
Lemma eval_check_seller_eligibility h token seller asins m :
  exists d, eval h (check_seller_eligibility token seller asins m) = Ok d.
Proof.
  unfold check_seller_eligibility. destruct token as [|c token]; [simpl; eauto|].
  rewrite eval_try_except. simpl.
  destruct (h _) as [resp|msg]; simpl; [|eauto].
  destruct (status_code resp =? 200); simpl; eauto.
Qed.

Lemma trace_check_seller_eligibility h token seller asins m :
  (length (trace h (check_seller_eligibility token seller asins m)) <= 1)%nat.
Proof.
  unfold check_seller_eligibility. destruct token as [|c token]; [simpl; lia|].
  rewrite trace_try_except. simpl.
  destruct (h _) as [resp|msg]; simpl; [|lia].
  destruct (status_code resp =? 200); simpl; lia.
Qed.

(** The response stage never raises, and formats the filtered records in
    order against the one eligibility outcome. *)
Lemma eval_respond h token req final :
  exists d,
    eval h (check_seller_eligibility token (req_seller_id req) (map asin final)
              (Py.upper (req_marketplace req))) = Ok d /\
    eval h (respond token req final) =
    Ok {| Seller := req_seller_id req;
          Marketplace := Py.upper (req_marketplace req);
          Filter_Category_ID := filter_category_echo req;
          Total_Products := Z.of_nat (length (imap (format_product d) final));
          Products := imap (format_product d) final |}.
Proof.
  destruct (eval_check_seller_eligibility h token (req_seller_id req)
              (map asin final) (Py.upper (req_marketplace req))) as [d Hd].
  exists d. split; [exact Hd|].
  unfold respond. rewrite eval_mbind, Hd. reflexivity.
Qed.

(** ** Sample runs *)

(** Two products, no category filter: both are returned in discovery order,
    indexed from 1, with the verdicts of the eligibility payload. *)
Example run_without_filter :
  exists res,
    eval (two_products 200) (analyze_seller "K" "T" (request "US" None)) = Ok res /\
    map (fun f => (index f, ASIN f, Eligibility f)) (Products res) =
      [(1, "A1", status verdict_eligible); (2, "A2", status verdict_restricted)] /\
    Total_Products res = 2 /\
    Filter_Category_ID res = EchoNone.
Proof. eexists. repeat split; vm_compute; reflexivity. Qed.

(** Category 100 requested: only A1 survives. *)
Example run_with_filter :
  exists res,
    eval (two_products 200) (analyze_seller "K" "T" (request "US" (Some 100))) = Ok res /\
    map (fun f => (index f, ASIN f)) (Products res) = [(1, "A1")] /\
    Filter_Category_ID res = EchoId 100.
Proof. eexists. repeat split; vm_compute; reflexivity. Qed.

(** Category 300 requested: no record matches, the post-filter not-found. *)
Example run_filter_without_match :
  eval (two_products 200) (analyze_seller "K" "T" (request "US" (Some 300))) =
  Raise (HTTPException 404
    "No products matched the Seller ID and the strict filter for Category ID 300 after fetching.").
Proof. vm_compute. reflexivity. Qed.

(** The calls of a full run, in order. *)
Example run_trace :
  trace (two_products 200) (analyze_seller "K" "T" (request "us" (Some 100))) =
  [Keepa_product_finder "K"
     {| sellerIds := "S1"; pageSize := 30; category := Some "100" |} "US";
   Keepa_query "K" ["A1"; "A2"] "US" 90;
   Keepa_category_lookup "K" 100 "US";
   Keepa_category_lookup "K" 200 "US";
   Requests_post "https://api-staging.optisage.ai/api/go-compare/seller-eligibility"
     "Bearer T"
     {| amazon_seller_id := "S1"; marketplace_id := 1; asins := ["A1"] |} 30].
Proof. vm_compute. reflexivity. Qed.

(** A rank signal of 37 is displayed and tagged fast. *)
Example rank_37 :
  exists d,
    extract_details (snapshot "A1" 100 (Some ([0; 0; 0; 37] ++ replicate 21 0)%list))
      = Ok (Some d) /\
    SalesRank (format_product (success_data BodyOther) 0 d) = 37 /\
    Velocity (format_product (success_data BodyOther) 0 d) = velocity_fast.
Proof. eexists. repeat split; reflexivity. Qed.

(** ** Decimal rendering *)

Lemma int_of_string_str z :
  NilZero.int_of_string (Py.str z) = Some (Z.to_int z).
Proof.
  apply NilZero.isi; destruct z; simpl; try discriminate;
    intros [= H]; now apply DecimalPos.Unsigned.to_uint_nonnil in H.
Qed.

Lemma str_inj a b : Py.str a = Py.str b -> a = b.
Proof.
  intros H. apply (f_equal NilZero.int_of_string) in H.
  rewrite !int_of_string_str in H.
  injection H as H. now apply DecimalZ.to_int_inj.
Qed.

Lemma str_not_NA z : Py.str z <> "N/A".
Proof.
  intros H. apply (f_equal NilZero.int_of_string) in H.
  rewrite int_of_string_str in H. discriminate H.
Qed.

(** ** Strict filtering *)

Lemma passes_filter_set_category_name requested p n :
  passes_filter requested (set_category_name p n) = passes_filter requested p.
Proof. reflexivity. Qed.

(** The loop names every record and keeps, in order, those passing the test. *)
Lemma eval_strict_filter h key requested m products :
  exists named,
    Forall2 (fun p q => exists n, q = set_category_name p n) products named /\
    eval h (strict_filter key requested m products) =
    Ok (List.filter (passes_filter requested) named).
Proof.
  induction products as [|p rest IH].
  - exists []. split; [constructor | reflexivity].
  - destruct IH as (named & Hnamed & Hrest).
    destruct (eval_resolve_category_name h key m (category_id p)) as [n Hn].
    exists (set_category_name p n :: named). split.
    + constructor; eauto.
    + cbn [strict_filter]. rewrite eval_mbind, Hn, eval_mbind, Hrest.
      cbn [List.filter]. now destruct (passes_filter requested _).
Qed.

Lemma passes_filter_requested req p :
  passes_filter (requested_category_id_str req) p = true ->
  requested_category_id_str req = None \/
  exists c, req_category_id req = Some c /\ category_id p = CatId c.
Proof.
  unfold requested_category_id_str, passes_filter.
  destruct (req_category_id req) as [c|]; [|now left]. simpl.
  destruct (Z.eqb_spec c 0) as [->|Hc]; simpl; [now left|].
  intros H. apply bool_decide_eq_true in H. right. exists c.
  split; [reflexivity|].
  destruct (category_id p) as [z|]; simpl in H.
  - f_equal. now apply str_inj.
  - symmetry in H. now apply str_not_NA in H.
Qed.

(** The filter of line 189 is unset exactly for a request without category
    id and for the category id 0, which Python takes as false. *)
Lemma requested_category_id_str_None req :
  requested_category_id_str req = None <->
  req_category_id req = None \/ req_category_id req = Some 0.
Proof.
  unfold requested_category_id_str.
  destruct (req_category_id req) as [c|]; simpl; [|tauto].
  destruct (Z.eqb_spec c 0) as [->|Hc]; simpl.
  - tauto.
  - split; [discriminate|]. intros [H|H]; [discriminate|]. congruence.
Qed.

(** What a successful run of the first stages went through. *)
Lemma final_products_ok h key req final :
  eval h (final_products key req) = Ok final ->
  marketplace_supported (Py.upper (req_marketplace req)) = true /\
  exists asins products,
    eval h (discover key req) = Ok asins /\ asins <> [] /\
    eval h (enrich key req asins) = Ok products /\
    eval h (strict_filter key (requested_category_id_str req)
              (Py.upper (req_marketplace req)) products) = Ok final /\
    (final = [] -> requested_category_id_str req = None).
Proof.
  unfold final_products.
  destruct (marketplace_supported _); cbn [negb]; [|discriminate].
  rewrite eval_mbind.
  destruct (eval h (discover key req)) as [asins|e] eqn:Hd; [|discriminate].
  destruct asins as [|a asins]; [discriminate|].
  rewrite eval_mbind.
  destruct (eval h (enrich key req (a :: asins))) as [products|e] eqn:He;
    [|discriminate].
  rewrite eval_mbind.
  destruct (eval h (strict_filter _ _ _ products)) as [kept|e] eqn:Hf;
    [|discriminate].
  intros H. split; [reflexivity|].
  exists (a :: asins), products.
  destruct kept as [|q kept]; destruct (requested_category_id_str req);
    simpl in H; try discriminate; injection H as <-; repeat split; easy.
Qed.

Lemma Forall2_imap {A B} (R : A -> B -> Prop) (f : nat -> A -> B) (l : list A) :
  (forall i x, R x (f i x)) -> Forall2 R l (imap f l).
Proof.
  revert f. induction l as [|x l IH]; intros f Hf; simpl; constructor.
  - apply Hf.
  - apply IH. intros i y. apply Hf.
Qed.

Lemma analyze_seller_ok h key token req res :
  eval h (analyze_seller key token req) = Ok res ->
  exists final d,
    eval h (final_products key req) = Ok final /\
    eval h (check_seller_eligibility token (req_seller_id req) (map asin final)
              (Py.upper (req_marketplace req))) = Ok d /\
    res = {| Seller := req_seller_id req;
             Marketplace := Py.upper (req_marketplace req);
             Filter_Category_ID := filter_category_echo req;
             Total_Products := Z.of_nat (length (imap (format_product d) final));
             Products := imap (format_product d) final |}.
Proof.
  unfold analyze_seller. rewrite eval_mbind.
  destruct (eval h (final_products key req)) as [final|e]; [|discriminate].
  destruct (eval_respond h token req final) as (d & Hd & ->).
  intros [= <-]. eauto.
Qed.

(** ** C1: strict category reconciliation *)

(** C1: every product record of the analysis result comes, in order, from a
    filtered record for which no category filter is in force (the filter of
    line 189, [requested_category_id_str], is unset) or whose category id
    equals the requested category id, whatever the providers returned. *)
Theorem strict_filter_invariant h key token req res :
  eval h (analyze_seller key token req) = Ok res ->
  exists final,
    eval h (final_products key req) = Ok final /\
    Forall2 (fun p f => ASIN f = asin p) final (Products res) /\
    Forall (fun p =>
              requested_category_id_str req = None \/
              exists c, req_category_id req = Some c /\ category_id p = CatId c)
           final.
Proof.
  intros Hres.
  destruct (analyze_seller_ok _ _ _ _ _ Hres) as (final & d & Hfinal & _ & ->).
  exists final. split; [exact Hfinal|]. split.
  { cbn [Products]. now apply Forall2_imap. }
  destruct (final_products_ok _ _ _ _ Hfinal) as (_ & asins & products & _ & _ & _ & Hf & _).
  destruct (eval_strict_filter h key (requested_category_id_str req)
              (Py.upper (req_marketplace req)) products) as (named & _ & Hn).
  rewrite Hn in Hf. injection Hf as <-.
  apply List.Forall_forall. intros p Hp.
  apply List.filter_In in Hp as [_ Hp].
  now apply passes_filter_requested.
Qed.

(** C1, at a sample run: category 100 requested, records of categories 100
    and 200 enriched. *)
Lemma strict_filter_invariant_witness :
  exists res final,
    eval (two_products 200) (analyze_seller "K" "T" (request "us" (Some 100))) = Ok res /\
    eval (two_products 200) (final_products "K" (request "us" (Some 100))) = Ok final /\
    map asin final = ["A1"] /\
    Forall2 (fun p f => ASIN f = asin p) final (Products res).
Proof.
  eexists.
  destruct (strict_filter_invariant (two_products 200) "K" "T"
              (request "us" (Some 100)) _ eq_refl) as (final & Hfinal & Hall & _).
  exists final. split; [reflexivity|]. split; [exact Hfinal|].
  split; [|exact Hall].
  vm_compute in Hfinal. injection Hfinal as <-. reflexivity.
Defined.

(** With the category id 0 no filter is in force: records of the root
    categories 100 and 200 are both returned. *)
Example category_zero_keeps_every_record :
  exists res,
    eval (two_products 200) (analyze_seller "K" "T" (request "US" (Some 0))) = Ok res /\
    map ASIN (Products res) = ["A1"; "A2"] /\
    requested_category_id_str (request "US" (Some 0)) = None.
Proof. eexists. repeat split; vm_compute; reflexivity. Qed.

(** ** The stages of the endpoint, evaluated *)

Lemma eval_final_products h key req :
  eval h (final_products key req) =
  if negb (marketplace_supported (Py.upper (req_marketplace req))) then
    Raise (HTTPException 400 (detail_unsupported req))
  else
    match eval h (discover key req) with
    | Raise e => Raise e
    | Ok [] => Raise (HTTPException 404 (detail_no_asins req))
    | Ok asins =>
        match eval h (enrich key req asins) with
        | Raise e => Raise e
        | Ok products =>
            match eval h (strict_filter key (requested_category_id_str req)
                            (Py.upper (req_marketplace req)) products) with
            | Raise e => Raise e
            | Ok final =>
                match final, requested_category_id_str req with
                | [], Some _ => Raise (HTTPException 404 (detail_no_match req))
                | _, _ => Ok final
                end
            end
        end
    end.
Proof.
  unfold final_products.
  destruct (negb (marketplace_supported _)); [reflexivity|].
  rewrite eval_mbind.
  destruct (eval h (discover key req)) as [[|a asins]|e]; try reflexivity.
  rewrite eval_mbind.
  destruct (eval h (enrich key req (a :: asins))) as [products|e];
    [|reflexivity].
  rewrite eval_mbind.
  destruct (eval h (strict_filter _ _ _ products)) as [[|q kept]|e];
    try reflexivity.
  now destruct (requested_category_id_str req).
Qed.

Lemma eval_analyze_seller h key token req :
  eval h (analyze_seller key token req) =
  match eval h (final_products key req) with
  | Ok final => eval h (respond token req final)
  | Raise e => Raise e
  end.
Proof. unfold analyze_seller. apply eval_mbind. Qed.

(** Discovery and enrichment fail only as gateway errors. *)
Lemma discover_raises h key req e :
  eval h (discover key req) = Raise e -> exists d, e = HTTPException 502 d.
Proof.
  unfold discover. rewrite eval_try_except, eval_get_seller_asins.
  destruct (h _) as [[[|x l]|]|msg]; try discriminate.
  cbn. intros [= <-]. eauto.
Qed.

Lemma enrich_raises h key req asins e :
  eval h (enrich key req asins) = Raise e -> exists d, e = HTTPException 502 d.
Proof.
  unfold enrich. rewrite eval_try_except.
  destruct asins as [|a asins]; [discriminate|].
  rewrite eval_get_product_details_batch.
  destruct (h _) as [products|msg].
  - destruct (extract_all products); [discriminate|].
    cbn. intros [= <-]. eauto.
  - cbn. intros [= <-]. eauto.
Qed.

Lemma strict_filter_never_raises h key requested m products e :
  eval h (strict_filter key requested m products) <> Raise e.
Proof.
  destruct (eval_strict_filter h key requested m products) as (named & _ & ->).
  discriminate.
Qed.

Lemma respond_never_raises h token req final e :
  eval h (respond token req final) <> Raise e.
Proof.
  destruct (eval_respond h token req final) as (d & _ & ->). discriminate.
Qed.

Lemma details_distinct req1 req2 : detail_no_asins req1 <> detail_no_match req2.
Proof. unfold detail_no_asins, detail_no_match. cbn. discriminate. Qed.

(** Where a 404 of the endpoint can come from. *)
Lemma not_found_cases h key token req detail :
  eval h (analyze_seller key token req) = Raise (HTTPException 404 detail) ->
  marketplace_supported (Py.upper (req_marketplace req)) = true /\
  ((eval h (discover key req) = Ok [] /\ detail = detail_no_asins req) \/
   (exists asins products,
      eval h (discover key req) = Ok asins /\ asins <> [] /\
      eval h (enrich key req asins) = Ok products /\
      eval h (strict_filter key (requested_category_id_str req)
                (Py.upper (req_marketplace req)) products) = Ok [] /\
      requested_category_id_str req <> None /\
      detail = detail_no_match req)).
Proof.
  rewrite eval_analyze_seller, eval_final_products.
  destruct (marketplace_supported _); cbn [negb]; [|discriminate].
  destruct (eval h (discover key req)) as [[|a asins]|e] eqn:Hd.
  - intros [= <-]. split; [reflexivity|]. now left.
  - destruct (eval h (enrich key req (a :: asins))) as [products|e] eqn:He.
    + destruct (eval h (strict_filter _ _ _ products)) as [final|e] eqn:Hf.
      2: { now apply strict_filter_never_raises in Hf. }
      intros H. split; [reflexivity|]. right.
      exists (a :: asins), products.
      destruct final as [|q final];
        destruct (requested_category_id_str req) as [r|]; simpl in H;
        try (now apply respond_never_raises in H).
      injection H as <-. repeat split; easy.
    + intros [= ->]. apply enrich_raises in He as [d [=]].
  - intros [= ->]. apply discover_raises in Hd as [d [=]].
Qed.

(** ** C5: the two not-found failures *)


(** ** C10: a requested category id of 0 *)

(** C10 (the code's behaviour, against the claim): the request with category
    id 0 is not treated as the request without category id.  Line 92 tests
    [category_id is not None], so discovery sends category 0 to the catalog
    provider; against a provider that honours the parameter the request is
    answered with the discovery not-found (whose text, by the truthiness
    test of line 204, names no category), while the same request without
    category id is answered with one product. *)
Theorem category_zero_reaches_discovery :
  req_category_id (request "US" (Some 0)) = Some 0 /\
  trace category_sensitive (discover "K" (request "US" (Some 0))) =
    [Keepa_product_finder "K"
       {| sellerIds := "S1"; pageSize := 30; category := Some "0" |} "US"] /\
  eval category_sensitive (analyze_seller "K" "T" (request "US" (Some 0))) =
    Raise (HTTPException 404 "No ASINs found for this seller.") /\
  (exists res,
     eval category_sensitive
       (analyze_seller "K" "T" (without_category (request "US" (Some 0)))) = Ok res /\
     map ASIN (Products res) = ["A1"]) /\
  eval category_sensitive (analyze_seller "K" "T" (request "US" (Some 0))) <>
  eval category_sensitive
    (analyze_seller "K" "T" (without_category (request "US" (Some 0)))).
Proof.
  split; [reflexivity|].
  split; [vm_compute; reflexivity|].
  split; [vm_compute; reflexivity|].
  split; [eexists; split; vm_compute; reflexivity|].
  vm_compute. discriminate.
Qed.

(** The three consequences the claim lists hold in the stages after
    discovery: for a request whose category id is 0, strict filtering keeps
    every record, a 404 can only be the discovery not-found, the response
    echoes the filter as None, and the whole outcome equals that of the
    request without category id whenever discovery answers both alike. *)
Lemma category_zero_unfiltered h key token req :
  req_category_id req = Some 0 ->
  (forall products,
     exists named,
       Forall2 (fun p q => exists n, q = set_category_name p n) products named /\
       eval h (strict_filter key (requested_category_id_str req)
                 (Py.upper (req_marketplace req)) products) = Ok named) /\
  (forall detail,
     eval h (analyze_seller key token req) = Raise (HTTPException 404 detail) ->
     eval h (discover key req) = Ok [] /\
     detail = "No ASINs found for this seller." /\
     detail <> detail_no_match req) /\
  (forall res,
     eval h (analyze_seller key token req) = Ok res ->
     Filter_Category_ID res = EchoNone) /\
  (eval h (discover key req) = eval h (discover key (without_category req)) ->
   eval h (analyze_seller key token req) =
   eval h (analyze_seller key token (without_category req))).
Proof.
  intros Hzero.
  assert (Hreq : requested_category_id_str req = None).
  { unfold requested_category_id_str. now rewrite Hzero. }
  assert (Hdetail : detail_no_asins req = "No ASINs found for this seller.").
  { unfold detail_no_asins. now rewrite Hzero. }
  split; [|split; [|split]].
  - intros products.
    destruct (eval_strict_filter h key (requested_category_id_str req)
                (Py.upper (req_marketplace req)) products) as (named & Hn & He).
    exists named. split; [exact Hn|]. rewrite He, Hreq. f_equal.
    clear. induction named as [|q named IH]; simpl; congruence.
  - intros detail H.
    apply not_found_cases in H as [_ [[Hd ->]|(a & p & _ & _ & _ & _ & Hr & _)]];
      [|now rewrite Hreq in Hr].
    split; [exact Hd|]. split; [exact Hdetail|]. apply details_distinct.
  - intros res Hres.
    destruct (analyze_seller_ok _ _ _ _ _ Hres) as (final & d & _ & _ & ->).
    cbn [Filter_Category_ID]. unfold filter_category_echo. now rewrite Hzero.
  - intros Hdisc.
    rewrite !eval_analyze_seller, !eval_final_products, <- Hdisc.
    destruct req as [s m c]. simpl in Hzero. subst c. reflexivity.
Qed.

(** At a sample request: category id 0 against the two-product providers,
    whose discovery ignores the category parameter. *)
Lemma category_zero_unfiltered_witness :
  (forall detail,
     eval (two_products 200) (analyze_seller "K" "T" (request "us" (Some 0))) =
       Raise (HTTPException 404 detail) ->
     eval (two_products 200) (discover "K" (request "us" (Some 0))) = Ok [] /\
     detail = "No ASINs found for this seller." /\
     detail <> detail_no_match (request "us" (Some 0))) /\
  eval (two_products 200) (analyze_seller "K" "T" (request "us" (Some 0))) =
  eval (two_products 200)
    (analyze_seller "K" "T" (without_category (request "us" (Some 0)))).
Proof.
  pose proof (category_zero_unfiltered (two_products 200) "K" "T"
                (request "us" (Some 0)) eq_refl) as (_ & H404 & _ & Hsame).
  split; [exact H404|]. apply Hsame. reflexivity.
Defined.

(** ** C6: marketplace validation *)

Lemma upper_unfold c c1 s2 :
  Py.upper (String c (String c1 s2)) =
  if Ascii.eqb c "195" && Ascii.eqb c1 "159" then "SS" +:+ Py.upper s2
  else if Ascii.eqb c "196" && Ascii.eqb c1 "177" then "I" +:+ Py.upper s2
  else if Ascii.eqb c "197" && Ascii.eqb c1 "191" then "S" +:+ Py.upper s2
  else
    match s2 with
    | EmptyString => String (Py.upper_char c) (Py.upper (String c1 s2))
    | String c2 s3 =>
        if Ascii.eqb c "239" && Ascii.eqb c1 "172" then
          match Py.ligature c2 with
          | Some e => e +:+ Py.upper s3
          | None => String (Py.upper_char c) (Py.upper (String c1 s2))
          end
        else String (Py.upper_char c) (Py.upper (String c1 s2))
    end.
Proof. reflexivity. Qed.

Lemma upper_step c s :
  Py.upper (String c s) = String (Py.upper_char c) (Py.upper s) \/
  (exists r, String c s = "ß" +:+ r /\ Py.upper (String c s) = "SS" +:+ Py.upper r) \/
  (exists r, String c s = "ı" +:+ r /\ Py.upper (String c s) = "I" +:+ Py.upper r) \/
  (exists r, String c s = "ſ" +:+ r /\ Py.upper (String c s) = "S" +:+ Py.upper r) \/
  (exists b e r,
     String c s = String "239" (String "172" (String b r)) /\
     Py.ligature b = Some e /\
     Py.upper (String c s) = e +:+ Py.upper r).
Proof.
  destruct s as [|c1 s2]; [left; reflexivity|].
  rewrite upper_unfold.
  destruct (Ascii.eqb c "195" && Ascii.eqb c1 "159") eqn:E1.
  { apply andb_true_iff in E1 as [Hc Hc1].
    apply Ascii.eqb_eq in Hc, Hc1. subst.
    right; left. eexists. split; reflexivity. }
  destruct (Ascii.eqb c "196" && Ascii.eqb c1 "177") eqn:E2.
  { apply andb_true_iff in E2 as [Hc Hc1].
    apply Ascii.eqb_eq in Hc, Hc1. subst.
    right; right; left. eexists. split; reflexivity. }
  destruct (Ascii.eqb c "197" && Ascii.eqb c1 "191") eqn:E3.
  { apply andb_true_iff in E3 as [Hc Hc1].
    apply Ascii.eqb_eq in Hc, Hc1. subst.
    right; right; right; left. eexists. split; reflexivity. }
  destruct s2 as [|c2 s3]; [left; reflexivity|].
  destruct (Ascii.eqb c "239" && Ascii.eqb c1 "172") eqn:E4;
    [|left; reflexivity].
  destruct (Py.ligature c2) as [e|] eqn:He; [|left; reflexivity].
  apply andb_true_iff in E4 as [Hc Hc1].
  apply Ascii.eqb_eq in Hc, Hc1. subst.
  right; right; right; right. exists c2, e, s3. repeat split. exact He.
Qed.

Lemma ligature_cases b e :
  Py.ligature b = Some e ->
  e = "FF" \/ e = "FI" \/ e = "FL" \/ e = "FFI" \/ e = "FFL" \/ e = "ST".
Proof.
  destruct b as [[] [] [] [] [] [] [] []]; cbv; intros H;
    try discriminate H; injection H as <-; auto 7.
Qed.

Lemma upper_char_preimage c :
  c = Py.upper_char c \/ c = lower_char (Py.upper_char c).
Proof. destruct c as [[] [] [] [] [] [] [] []]; cbv; auto. Qed.

Lemma upper_nil s : Py.upper s = "" -> s = "".
Proof.
  destruct s as [|c s]; [reflexivity|]. intros H.
  destruct (upper_step c s)
    as [E|[(r & _ & E)|[(r & _ & E)|[(r & _ & E)|(b & e & r & _ & He & E)]]]];
    rewrite E in H; try discriminate H.
  apply ligature_cases in He.
  destruct He as [->|[->|[->|[->|[->| ->]]]]]; discriminate H.
Qed.

Ltac norm_append H := rewrite ?append_cons, ?append_nil_l in H.

(** One step of [Py.upper] on [String c s], by cases, in hypothesis [H]. *)
Ltac upper_invert H c s r Hs :=
  let E := fresh "E" in
  let b := fresh "b" in
  let e := fresh "e" in
  let He := fresh "He" in
  destruct (upper_step c s)
    as [E|[(r & Hs & E)|[(r & Hs & E)|[(r & Hs & E)|(b & e & r & Hs & He & E)]]]];
  rewrite E in H; clear E;
  [ | norm_append H; try discriminate H
    | norm_append H; try discriminate H
    | norm_append H; try discriminate H
    | apply ligature_cases in He;
      destruct He as [->|[->|[->|[->|[->| ->]]]]];
      norm_append H; try discriminate H ].

Ltac pick_case c Hc :=
  let P := fresh "P" in
  destruct (upper_char_preimage c) as [P|P]; rewrite Hc in P; subst c.

Ltac in_variants := vm_compute; auto 10.

Lemma upper_code_variant m code :
  In code marketplace_codes -> Py.upper m = code -> In m (case_variants code).
Proof.
  intros Hcode Hm.
  destruct m as [|c s].
  { simpl in Hcode. destruct Hcode as [<-|[<-|[<-|[<-|[<-|[<-|[]]]]]]];
      discriminate Hm. }
  simpl in Hcode.
  destruct Hcode as [<-|[<-|[<-|[<-|[<-|[<-|[]]]]]]];
    upper_invert Hm c s r Hs;
    injection Hm as Hc Hrest;
    (destruct s as [|c2 s2]; [discriminate Hrest|]);
    upper_invert Hrest c2 s2 r2 Hs2;
    first
      [ injection Hrest as Hc2 Hnil; apply upper_nil in Hnil; subst s2;
        pick_case c2 Hc2; pick_case c Hc; in_variants
      | injection Hrest as Hnil; apply upper_nil in Hnil; subst r2;
        norm_append Hs2; injection Hs2 as -> ->;
        pick_case c Hc; in_variants ].
Qed.

Lemma case_variant_upper m code :
  In code marketplace_codes -> In m (case_variants code) -> Py.upper m = code.
Proof.
  simpl. intros [<-|[<-|[<-|[<-|[<-|[<-|[]]]]]]] Hm; vm_compute in Hm;
    repeat (destruct Hm as [<-|Hm]; [reflexivity|]); destruct Hm.
Qed.

Lemma marketplace_supported_codes m :
  marketplace_supported m = true <-> In m marketplace_codes.
Proof.
  unfold marketplace_supported.
  rewrite bool_decide_eq_true, list_elem_of_In. reflexivity.
Qed.

Lemma marketplace_codes_upper code :
  In code marketplace_codes -> Py.upper code = code.
Proof.
  simpl. intros [<-|[<-|[<-|[<-|[<-|[<-|[]]]]]]]; reflexivity.
Qed.

(** C6: the marketplace is accepted exactly when it spells one of US, UK,
    DE, FR, JP, CA up to letter case, each letter being the capital, the
    small letter or (for S) the long s, whose capital in [str.upper()] is S;
    a rejected marketplace makes the endpoint raise the validation error
    (status 400) with no remote call issued, and an accepted one never
    yields that error. *)
Theorem marketplace_validation h key token req :
  (marketplace_supported (Py.upper (req_marketplace req)) = true <->
   exists code, In code marketplace_codes /\
                In (req_marketplace req) (case_variants code)) /\
  (marketplace_supported (Py.upper (req_marketplace req)) = false ->
   eval h (analyze_seller key token req) =
     Raise (HTTPException 400 (detail_unsupported req)) /\
   trace h (analyze_seller key token req) = []) /\
  (marketplace_supported (Py.upper (req_marketplace req)) = true ->
   forall detail,
     eval h (analyze_seller key token req) <> Raise (HTTPException 400 detail)).
Proof.
  split; [|split].
  - rewrite marketplace_supported_codes. split.
    + intros Hin. exists (Py.upper (req_marketplace req)).
      split; [exact Hin|]. now apply upper_code_variant.
    + intros (code & Hin & Hm).
      now rewrite (case_variant_upper _ _ Hin Hm).
  - intros Hno. unfold analyze_seller, final_products.
    rewrite eval_mbind, trace_mbind, Hno. split; reflexivity.
  - intros Hyes detail H.
    rewrite eval_analyze_seller, eval_final_products, Hyes in H.
    cbn [negb] in H.
    destruct (eval h (discover key req)) as [[|a asins]|e] eqn:Hd;
      [discriminate| |].
    + destruct (eval h (enrich key req (a :: asins))) as [products|e] eqn:He.
      * destruct (eval_strict_filter h key (requested_category_id_str req)
                    (Py.upper (req_marketplace req)) products) as (named & _ & Hn).
        rewrite Hn in H.
        destruct (List.filter _ named);
          destruct (requested_category_id_str req); simpl in H;
          try discriminate; now apply respond_never_raises in H.
      * apply enrich_raises in He as [d ->]. discriminate.
    + apply discover_raises in Hd as [d ->]. discriminate.
Qed.

(** C6, at sample requests: a lower-case code is accepted, an unknown
    marketplace is rejected before any call. *)
Lemma marketplace_validation_witness :
  (eval (two_products 200) (analyze_seller "K" "T" (request "xx" None)) =
     Raise (HTTPException 400 (detail_unsupported (request "xx" None))) /\
   trace (two_products 200) (analyze_seller "K" "T" (request "xx" None)) = []) /\
  (forall detail,
     eval (two_products 200) (analyze_seller "K" "T" (request "de" None)) <>
     Raise (HTTPException 400 detail)).
Proof.
  split.
  - apply (marketplace_validation (two_products 200) "K" "T" (request "xx" None)).
    reflexivity.
  - apply (marketplace_validation (two_products 200) "K" "T" (request "de" None)).
    reflexivity.
Defined.

(** The accepted spellings of US. *)
Example us_spellings :
  case_variants "US" = ["US"; "Us"; "Uſ"; "uS"; "us"; "uſ"].
Proof. reflexivity. Qed.

(** The long s is upper-cased to S: this marketplace is accepted as US. *)
Example long_s_accepted :
  exists res,
    eval (two_products 200) (analyze_seller "K" "T" (request "uſ" None)) = Ok res /\
    Marketplace res = "US".
Proof. eexists. split; vm_compute; reflexivity. Qed.

(** ** C4: eligibility failures are absorbed *)

Lemma check_seller_eligibility_unavailable h token seller asins m :
  eligibility_unavailable token h ->
  exists e dt,
    eval h (check_seller_eligibility token seller asins m) =
    Ok {| success := Some false; data := None; error := Some e; details := dt |}.
Proof.
  intros Hun. unfold check_seller_eligibility.
  destruct token as [|c token]; [simpl; eauto|].
  destruct Hun as [Hun|Hun]; [discriminate|].
  rewrite eval_try_except. simpl.
  match goal with
  | |- context [h (Requests_post ?u ?a ?p ?t)] => specialize (Hun u a p t)
  end.
  destruct (h _) as [resp|msg]; simpl; [|eauto].
  destruct (Z.eqb_spec (status_code resp) 200); [contradiction|].
  simpl. eauto.
Qed.

Lemma parse_failure_is_api_error e dt a :
  status (parse_eligibility_result
            {| success := Some false; data := None; error := Some e; details := dt |} a)
  = status_api_error.
Proof. reflexivity. Qed.

(** C4: when the eligibility provider is unavailable (missing credential,
    transport failure, or a status other than 200), the client returns a
    dict with success false instead of raising, and every filtered record
    appears in the analysis result, in order, with the API Error status. *)
Theorem eligibility_failure_absorbed h key token req :
  eligibility_unavailable token h ->
  (forall seller asins m,
     exists e dt,
       eval h (check_seller_eligibility token seller asins m) =
       Ok {| success := Some false; data := None; error := Some e; details := dt |}) /\
  (forall final,
     eval h (final_products key req) = Ok final ->
     exists res,
       eval h (analyze_seller key token req) = Ok res /\
       Forall2 (fun p f => ASIN f = asin p /\ Eligibility f = status_api_error)
               final (Products res)).
Proof.
  intros Hun. split.
  - intros seller asins m. now apply check_seller_eligibility_unavailable.
  - intros final Hfinal.
    rewrite eval_analyze_seller, Hfinal.
    destruct (eval_respond h token req final) as (d & Hd & ->).
    destruct (check_seller_eligibility_unavailable h token (req_seller_id req)
                (map asin final) (Py.upper (req_marketplace req)) Hun)
      as (e & dt & Hfail).
    rewrite Hfail in Hd. injection Hd as <-.
    eexists. split; [reflexivity|]. cbn [Products].
    apply Forall2_imap. intros i p. split; reflexivity.
Qed.

(** C4, at a sample run: the provider answers 500 for two filtered records. *)
Lemma eligibility_failure_absorbed_witness :
  exists res,
    eval (two_products 500) (analyze_seller "K" "T" (request "US" None)) = Ok res /\
    Forall2 (fun p f => ASIN f = asin p /\ Eligibility f = status_api_error)
      [set_category_name
         (default_details "A1" (CatId 100)) "Books";
       set_category_name
         (default_details "A2" (CatId 200)) "Books"]
      (Products res).
Proof.
  apply (eligibility_failure_absorbed (two_products 500) "K" "T" (request "US" None)).
  - right. intros url authorization payload timeout. simpl. lia.
  - vm_compute. reflexivity.
Defined.

(** ** C7: verdicts by exact identifier match *)

Lemma scan_items_absent items a :
  (forall item, In item items -> ~ carries a item) ->
  scan_items items a = Ok None \/
  (exists e, scan_items items a = Raise e /\ ~ Forall is_object items).
Proof.
  induction items as [|[b e|t] items IH]; intros Habs; simpl.
  - now left.
  - case_bool_decide as Hb.
    + exfalso. apply (Habs (ItemDict b e)); [now left|]. subst b. now exists e.
    + destruct IH as [IH|(x & IH & Hno)].
      * intros item Hin. apply Habs. now right.
      * now left.
      * right. exists x. split; [exact IH|].
        intros Hall. apply Hno. now inversion Hall.
  - right. eexists. split; [reflexivity|].
    intros Hall. now inversion Hall.
Qed.

(** The first payload object for the identifier decides the verdict. *)
Lemma scan_items_first_match pre post a e :
  Forall (fun item => is_object item /\ ~ carries a item) pre ->
  scan_items (pre ++ ItemDict (Some a) e :: post) a =
  Ok (Some (if default false e then verdict_eligible else verdict_restricted)).
Proof.
  induction 1 as [|[b e'|t] pre [Hobj Hno] _ IH]; simpl.
  - now rewrite bool_decide_eq_true_2.
  - rewrite bool_decide_eq_false_2; [exact IH|].
    intros ->. apply Hno. now exists e'.
  - destruct Hobj.
Qed.

Lemma parse_absent body a :
  absent_from a body ->
  kind_of_status (status (parse_eligibility_result (success_data body) a)) = Unknown /\
  (all_objects body ->
   parse_eligibility_result (success_data body) a = verdict_not_found).
Proof.
  destruct body as [items|]; simpl; [|easy].
  intros Habs. unfold parse_eligibility_result, parse_eligibility_body. simpl.
  destruct (scan_items_absent items a Habs) as [->|(x & -> & Hno)]; simpl.
  - easy.
  - split; [reflexivity | intros Hall; contradiction].
Qed.

Lemma parse_first_match pre post a e :
  Forall (fun item => is_object item /\ ~ carries a item) pre ->
  parse_eligibility_result
    (success_data (BodyList (pre ++ ItemDict (Some a) e :: post))) a =
  if default false e then verdict_eligible else verdict_restricted.
Proof.
  intros Hpre. unfold parse_eligibility_result, parse_eligibility_body. simpl.
  now rewrite scan_items_first_match.
Qed.

(** C7: after a successful eligibility response (status 200, decoded body
    [body]) the response stage returns, having issued at most one remote
    call; every filtered record appears in order with the status parsed from
    that one response for its own identifier; the first payload object
    carrying exactly that identifier decides Eligible or Restricted; and an
    identifier carried by no payload object gets the Unknown verdict, with
    the Not Found label when the payload holds objects only. *)
Theorem verdict_by_exact_match h token req final body :
  eval h (check_seller_eligibility token (req_seller_id req) (map asin final)
            (Py.upper (req_marketplace req))) = Ok (success_data body) ->
  exists res,
    eval h (respond token req final) = Ok res /\
    (length (trace h (respond token req final)) <= 1)%nat /\
    Forall2
      (fun p f =>
         ASIN f = asin p /\
         Eligibility f =
           status (parse_eligibility_result (success_data body) (asin p)) /\
         (absent_from (asin p) body ->
          kind_of_status (Eligibility f) = Unknown /\
          (all_objects body -> Eligibility f = status verdict_not_found)) /\
         (forall pre post e,
            body = BodyList (pre ++ ItemDict (Some (asin p)) e :: post) ->
            Forall (fun item => is_object item /\ ~ carries (asin p) item) pre ->
            Eligibility f =
              status (if default false e then verdict_eligible
                      else verdict_restricted)))
      final (Products res).
Proof.
  intros Hok.
  destruct (eval_respond h token req final) as (d & Hd & Hres).
  rewrite Hok in Hd. injection Hd as <-.
  eexists. split; [exact Hres|]. split.
  { unfold respond. rewrite trace_mbind, Hok. cbn [trace ret].
    rewrite app_nil_r. apply trace_check_seller_eligibility. }
  cbn [Products]. apply Forall2_imap. intros i p.
  split; [reflexivity|]. split; [reflexivity|]. split.
  - intros Habs. cbn [Eligibility format_product].
    destruct (parse_absent body (asin p) Habs) as [Hk Hnf].
    split; [exact Hk|]. intros Hall. now rewrite Hnf.
  - intros pre post e -> Hpre. cbn [Eligibility format_product].
    now rewrite parse_first_match.
Qed.

(** C7, at a sample run: the payload names A1 and A2; a third record A3 is
    absent from it. *)
Lemma verdict_by_exact_match_witness :
  exists res,
    eval (two_products 200)
      (respond "T" (request "US" None)
         [default_details "A1" (CatId 100); default_details "A3" (CatId 100)])
    = Ok res /\
    map Eligibility (Products res) =
      [status verdict_eligible; status verdict_not_found].
Proof.
  destruct (verdict_by_exact_match (two_products 200) "T" (request "US" None)
              [default_details "A1" (CatId 100); default_details "A3" (CatId 100)]
              (BodyList [ItemDict (Some "A1") (Some true); ItemDict (Some "A2") None])
              eq_refl) as (res & Hres & _ & Hall).
  exists res. split; [exact Hres|].
  inversion Hall as [|p1 f1 l1 r1 (_ & H1 & _) Hall1 Heq1 Heq2]; subst.
  inversion Hall1 as [|p2 f2 l2 r2 (_ & H2 & _) Hall2 Heq3 Heq4]; subst.
  inversion Hall2; subst. simpl. now rewrite H1, H2.
Defined.

(** ** C3: the price fallback chain *)

(** A positive number of cents never prints as 0.00. *)
Lemma format_cents_positive v : 0 < v -> Py.format_cents_2f v <> "0.00".
Proof.
  intros Hv H. unfold Py.format_cents_2f, Py.sign in H.
  destruct (Z.ltb_spec v 0) as [?|_]; [lia|].
  rewrite Z.abs_eq in H by lia.
  pose proof (Z.div_mod v 100 ltac:(lia)) as Hdm.
  pose proof (Z.mod_pos_bound v 100 ltac:(lia)) as Hr.
  pose proof (Z.div_pos v 100 ltac:(lia) ltac:(lia)) as Hq.
  set (q := v / 100) in *. set (r := v mod 100) in *.
  rewrite append_nil_l in H.
  destruct (Py.str q) as [|c1 [|c2 rest]] eqn:Hs;
    rewrite ?append_cons, ?append_nil_l in H.
  - discriminate H.
  - injection H as -> Hp.
    assert (q = 0) by (apply str_inj; rewrite Hs; reflexivity).
    unfold Py.pad2 in Hp.
    destruct (Z.ltb_spec r 10); rewrite ?append_cons, ?append_nil_l in Hp.
    + injection Hp as Hp. change (Py.str r = Py.str 0) in Hp.
      apply str_inj in Hp. lia.
    + apply (f_equal NilZero.int_of_string) in Hp.
      rewrite int_of_string_str in Hp. cbn in Hp. injection Hp as Hp.
      apply (f_equal Z.of_int) in Hp. rewrite DecimalZ.of_to in Hp.
      cbn in Hp. lia.
  - injection H as -> -> _.
    apply (f_equal NilZero.int_of_string) in Hs.
    rewrite int_of_string_str in Hs. cbn in Hs.
    destruct (NilEmpty.uint_of_string rest); discriminate Hs.
Qed.

Lemma format_price_never_zero cents :
  format_price (price_of_cents cents) <> "$0.00".
Proof.
  unfold price_of_cents. destruct (Z.ltb_spec 0 cents) as [Hpos|_]; [|easy].
  unfold format_price. rewrite append_cons, append_nil_l.
  intros [= H]. now apply format_cents_positive in H.
Qed.

Lemma extract_price_cents_chain current_data s0 s13 s7 s1 :
  current_data !! 0%nat = Some s0 -> current_data !! 13%nat = Some s13 ->
  current_data !! 7%nat = Some s7 -> current_data !! 1%nat = Some s1 ->
  extract_price_cents current_data =
  Ok (default 0 (first_positive [s0; s13; s7; s1])).
Proof.
  intros H0 H13 H7 H1. unfold extract_price_cents, py_index, first_positive.
  rewrite H0, H13, H7, H1. simpl.
  destruct (0 <? s0); [reflexivity|].
  destruct (0 <? s13); [reflexivity|].
  destruct (0 <? s7); [reflexivity|].
  destruct (0 <? s1); reflexivity.
Qed.

Lemma first_positive_positive signals v :
  first_positive signals = Some v -> 0 < v.
Proof.
  unfold first_positive. intros H. apply List.find_some in H as [_ H]. lia.
Qed.

(** Where the four price slots (0, 13, 7, 1 in priority order) exist and
    hold signals s0, s13, s7, s1 below 2^52, extraction returns a record;
    the price in cents is the first strictly positive signal in that order,
    the formatted price is that value with two decimals, or N/A when no
    signal is strictly positive, and it is never $0.00. *)
Lemma price_fallback_chain product a s0 s13 s7 s1 :
  snap_asin product = Some a ->
  current_data_of product !! 0%nat = Some s0 ->
  current_data_of product !! 13%nat = Some s13 ->
  current_data_of product !! 7%nat = Some s7 ->
  current_data_of product !! 1%nat = Some s1 ->
  Forall (fun v => v < 2 ^ 52) [s0; s13; s7; s1] ->
  extract_price_cents (current_data_of product) =
    Ok (default 0 (first_positive [s0; s13; s7; s1])) /\
  exists d,
    extract_details product = Ok (Some d) /\
    current_price d =
      match first_positive [s0; s13; s7; s1] with
      | Some v => "$" +:+ Py.format_cents_2f v
      | None => "N/A"
      end /\
    current_price d <> "$0.00".
Proof.
  intros Ha H0 H13 H7 H1 _.
  pose proof (extract_price_cents_chain _ _ _ _ _ H0 H13 H7 H1) as Hc.
  split; [exact Hc|].
  unfold extract_details. rewrite Ha, Hc. cbn [rbind].
  eexists. split; [reflexivity|]. cbn [current_price]. split.
  - destruct (first_positive [s0; s13; s7; s1]) as [v|] eqn:Hf; simpl.
    + apply first_positive_positive in Hf. unfold price_of_cents.
      destruct (Z.ltb_spec 0 v); [reflexivity | lia].
    + reflexivity.
  - apply format_price_never_zero.
Qed.

(** At the signals (0, 0, 0, 5): the fourth slot's value is the price. *)
Lemma price_fallback_chain_witness :
  extract_price_cents signals_0005 = Ok 5 /\
  exists d,
    extract_details (snapshot "A1" 100 (Some signals_0005)) = Ok (Some d) /\
    current_price d = "$0.05" /\
    current_price d <> "$0.00".
Proof.
  apply (price_fallback_chain (snapshot "A1" 100 (Some signals_0005)) "A1" 0 0 0 5
           eq_refl eq_refl eq_refl eq_refl eq_refl).
  repeat constructor.
Defined.

(** C3 (the code's behaviour, against the claim): for an identified
    snapshot whose signal list has at most 13 slots, none of them strictly
    positive, the price chain indexes a slot that does not exist and
    extraction raises IndexError, where the claim gives the N/A price.  The
    chain of lines 124-127 is unguarded, unlike the rank slot of line 130. *)
Theorem price_chain_raises_on_short_signals product a :
  snap_asin product = Some a ->
  (length (current_data_of product) <= 13)%nat ->
  Forall (fun v => v <= 0) (current_data_of product) ->
  extract_details product = Raise (IndexError "list index out of range").
Proof.
  intros Ha Hlen Hall. unfold extract_details. rewrite Ha.
  assert (Hp : extract_price_cents (current_data_of product) =
               Raise (IndexError "list index out of range")).
  { unfold extract_price_cents, py_index.
    destruct (current_data_of product !! 0%nat) as [v0|] eqn:H0;
      [|reflexivity].
    apply list_elem_of_lookup_2, list_elem_of_In in H0.
    apply (proj1 (List.Forall_forall _ _) Hall) in H0. cbn [rbind].
    destruct (Z.ltb_spec 0 v0); [lia|].
    rewrite lookup_ge_None_2 by lia. reflexivity. }
  now rewrite Hp.
Qed.

(** C3, at the signal list [0]. *)
Lemma price_chain_raises_on_short_signals_witness :
  extract_details (snapshot "A1" 100 (Some [0])) =
  Raise (IndexError "list index out of range").
Proof.
  apply (price_chain_raises_on_short_signals (snapshot "A1" 100 (Some [0])) "A1").
  - reflexivity.
  - simpl. lia.
  - repeat constructor. simpl. lia.
Defined.

(** With the signals (0, 0, 0, 0) the price is the N/A sentinel. *)
Example price_all_zero :
  exists d,
    extract_details (snapshot "A1" 100 None) = Ok (Some d) /\
    current_price d = "N/A".
Proof. eexists. split; reflexivity. Qed.

(** ** C2: rank and velocity *)

Lemma extract_details_some product d :
  extract_details product = Ok (Some d) ->
  sales_rank d = default 0 (extract_sales_rank (current_data_of product)).
Proof.
  unfold extract_details. destruct (snap_asin product); [|discriminate].
  destruct (extract_price_cents _); [|discriminate].
  cbn [rbind]. now intros [= <-].
Qed.

Lemma extract_sales_rank_cases current_data :
  extract_sales_rank current_data =
  match current_data !! 3%nat with
  | Some v => if 0 <? v then Some v else None
  | None => None
  end.
Proof.
  unfold extract_sales_rank. case_bool_decide as Hlen; [reflexivity|].
  rewrite lookup_ge_None_2; [reflexivity | lia].
Qed.

(** A strictly positive rank signal is displayed as it is, and tagged fast
    exactly when it is below 50000. *)
Lemma rank_present_velocity product d e idx v :
  extract_details product = Ok (Some d) ->
  current_data_of product !! 3%nat = Some v -> 0 < v ->
  SalesRank (format_product e idx d) = v /\
  (Velocity (format_product e idx d) = velocity_fast <-> v < 50000).
Proof.
  intros Hd Hv Hpos. apply extract_details_some in Hd.
  rewrite extract_sales_rank_cases, Hv in Hd.
  destruct (Z.ltb_spec 0 v); [|lia]. simpl in Hd.
  cbn [SalesRank Velocity format_product]. rewrite Hd. split; [reflexivity|].
  destruct (Z.ltb_spec v 50000); split; try easy; lia.
Qed.

(** C2 (the code's behaviour, against the claim): when the rank signal of an
    identified snapshot is absent, zero or negative, the assembled record
    displays sales rank 0 and carries the fast velocity tag, where the claim
    requires the slow tag and no displayed rank 0. *)
Theorem rank_signal_absent_tagged_fast product d e idx :
  extract_details product = Ok (Some d) ->
  match current_data_of product !! 3%nat with
  | Some v => v <= 0
  | None => True
  end ->
  SalesRank (format_product e idx d) = 0 /\
  Velocity (format_product e idx d) = velocity_fast.
Proof.
  intros Hd Hv. apply extract_details_some in Hd.
  rewrite extract_sales_rank_cases in Hd.
  cbn [SalesRank Velocity format_product]. rewrite Hd.
  destruct (current_data_of product !! 3%nat) as [v|]; [|split; reflexivity].
  destruct (Z.ltb_spec 0 v); [lia|]. split; reflexivity.
Qed.

(** C2, at a snapshot without statistics (all signals default to 0). *)
Lemma rank_signal_absent_tagged_fast_witness :
  SalesRank (format_product (success_data BodyOther) 0
               (default_details "A1" (CatId 100))) = 0 /\
  Velocity (format_product (success_data BodyOther) 0
              (default_details "A1" (CatId 100))) = velocity_fast.
Proof.
  apply (rank_signal_absent_tagged_fast
           {| snap_asin := Some "A1"; snap_stats := None; snap_image := None;
              snap_imagesCSV := None; snap_rating := None;
              snap_reviewCount := None; snap_title := None;
              snap_brand := None; snap_rootCategory := Some 100 |}).
  - reflexivity.
  - simpl. lia.
Defined.

(** ** C8: detail enrichment *)

(** Empty input: empty output, no remote call. *)
Lemma enrichment_empty_input h key domain :
  eval h (get_product_details_batch key [] domain) = Ok [] /\
  trace h (get_product_details_batch key [] domain) = [].
Proof. split; reflexivity. Qed.

(** A snapshot without identifier is skipped. *)
Lemma extract_all_skips_unidentified pre p post :
  snap_asin p = None ->
  extract_all (pre ++ p :: post) = extract_all (pre ++ post).
Proof.
  intros Hp. induction pre as [|x pre IH]; simpl.
  - unfold extract_details at 1. rewrite Hp. cbn [rbind].
    now destruct (extract_all post).
  - now rewrite IH.
Qed.

Lemma extract_all_length products ds :
  extract_all products = Ok ds -> (length ds <= length products)%nat.
Proof.
  revert ds. induction products as [|x products IH]; simpl; intros ds.
  - intros [= <-]. simpl. lia.
  - destruct (extract_details x) as [d|]; [|discriminate]. cbn [rbind].
    destruct (extract_all products) as [ds'|]; [|discriminate]. cbn [rbind].
    specialize (IH ds' eq_refl).
    intros [= <-]. destruct d; simpl; lia.
Qed.

(** C8 (the code's behaviour, against the claim): the detail provider
    answers normally, but the first snapshot, although identified, has a
    price-signal list of one non-positive slot; indexing slot 13 raises, the
    blanket handler turns it into the enrichment error, and the endpoint
    fails with status 502 although the second record is well-formed. *)
Theorem malformed_record_fails_enrichment :
  short_signals (Keepa_query "K" ["A1"; "A2"] "US" 90) =
    Returned [snapshot "A1" 100 (Some [0]); snapshot "A2" 100 None] /\
  eval short_signals (get_product_details_batch "K" ["A1"; "A2"] "US") =
    Raise (RuntimeError "Product details error: list index out of range") /\
  eval short_signals (analyze_seller "K" "T" (request "US" None)) =
    Raise (HTTPException 502
      "Keepa Product Details Error: Product details error: list index out of range").
Proof. repeat split; vm_compute; reflexivity. Qed.

(** * Further properties of the code *)

(** ** The calls of each stage *)

Lemma trace_check_seller_eligibility_exact h token req asins :
  trace h (check_seller_eligibility token (req_seller_id req) asins
             (Py.upper (req_marketplace req))) =
  match token with
  | EmptyString => []
  | _ => [eligibility_call token req asins]
  end.
Proof.
  unfold check_seller_eligibility. destruct token as [|c token]; [reflexivity|].
  rewrite trace_try_except. simpl.
  destruct (h _) as [resp|msg]; simpl; [|reflexivity].
  destruct (status_code resp =? 200); reflexivity.
Qed.

Lemma trace_get_category_name h key z domain :
  trace h (get_category_name key z domain) = [Keepa_category_lookup key z domain].
Proof.
  unfold get_category_name. rewrite trace_try_except. simpl.
  destruct (h _) as [categories|msg]; reflexivity.
Qed.

Lemma trace_resolve_category_name h key domain cid :
  trace h (resolve_category_name key domain cid) =
  match cid with
  | CatId z => if negb (z =? 0) then [Keepa_category_lookup key z domain] else []
  | CatNA => []
  end.
Proof.
  destruct cid as [z|]; cbn [resolve_category_name]; [|reflexivity].
  destruct (z =? 0); cbn [negb]; [reflexivity|].
  rewrite trace_try_except, trace_get_category_name.
  destruct (eval_get_category_name h key z domain) as [n ->]. reflexivity.
Qed.

Lemma trace_strict_filter h key requested m products :
  trace h (strict_filter key requested m products) = lookup_calls key m products.
Proof.
  induction products as [|p rest IH]; [reflexivity|].
  cbn [strict_filter lookup_calls flat_map].
  rewrite trace_mbind, trace_resolve_category_name. f_equal.
  destruct (eval_resolve_category_name h key m (category_id p)) as [n ->].
  rewrite trace_mbind, IH.
  destruct (eval_strict_filter h key requested m rest) as (named & _ & ->).
  cbn [trace ret]. apply app_nil_r.
Qed.

Lemma trace_discover h key req :
  trace h (discover key req) =
  [Keepa_product_finder key
     {| sellerIds := req_seller_id req; pageSize := MAX_PRODUCTS;
        category := Py.str <$> req_category_id req |}
     (Py.upper (req_marketplace req))].
Proof.
  unfold discover. rewrite trace_try_except, trace_get_seller_asins.
  rewrite eval_get_seller_asins.
  destruct (h _) as [[[|x l]|]|msg]; reflexivity.
Qed.

(** For every provider, the discovery query of a request with category id 0
    carries the category parameter 0 and so differs from the query of the
    same request without category id (line 92 tests [is not None]). *)
Lemma discovery_query_category_zero h key req :
  req_category_id req = Some 0 ->
  trace h (discover key req) =
    [Keepa_product_finder key
       {| sellerIds := req_seller_id req; pageSize := MAX_PRODUCTS;
          category := Some "0" |}
       (Py.upper (req_marketplace req))] /\
  trace h (discover key req) <> trace h (discover key (without_category req)).
Proof.
  intros Hc. rewrite !trace_discover, Hc. split; [reflexivity|].
  cbn. intros H. discriminate H.
Qed.

Lemma trace_enrich h key req a asins :
  trace h (enrich key req (a :: asins)) =
  [Keepa_query key (a :: asins) (Py.upper (req_marketplace req)) 90].
Proof.
  unfold enrich. rewrite trace_try_except, eval_get_product_details_batch.
  unfold get_product_details_batch. rewrite trace_try_except. simpl.
  destruct (h _) as [products|msg]; simpl; [|reflexivity].
  destruct (extract_all products); reflexivity.
Qed.

Lemma trace_final_products h key req :
  trace h (final_products key req) =
  if negb (marketplace_supported (Py.upper (req_marketplace req))) then []
  else
    (trace h (discover key req) ++
     match eval h (discover key req) with
     | Ok (a :: asins) =>
         trace h (enrich key req (a :: asins)) ++
         match eval h (enrich key req (a :: asins)) with
         | Ok products =>
             lookup_calls key (Py.upper (req_marketplace req)) products
         | Raise _ => []
         end
     | _ => []
     end)%list.
Proof.
  unfold final_products.
  destruct (negb (marketplace_supported _)); [reflexivity|].
  rewrite trace_mbind. f_equal.
  destruct (eval h (discover key req)) as [[|a asins]|e]; try reflexivity.
  rewrite trace_mbind. f_equal.
  destruct (eval h (enrich key req (a :: asins))) as [products|e];
    [|reflexivity].
  rewrite trace_mbind, trace_strict_filter.
  destruct (eval_strict_filter h key (requested_category_id_str req)
              (Py.upper (req_marketplace req)) products) as (named & _ & ->).
  destruct (List.filter _ named); destruct (requested_category_id_str req);
    cbn [trace ret raise]; apply app_nil_r.
Qed.

Lemma trace_analyze_seller h key token req :
  trace h (analyze_seller key token req) =
  (trace h (final_products key req) ++
   match eval h (final_products key req) with
   | Ok final => trace h (respond token req final)
   | Raise _ => []
   end)%list.
Proof. unfold analyze_seller. apply trace_mbind. Qed.

Lemma trace_respond h token req final :
  trace h (respond token req final) =
  match token with
  | EmptyString => []
  | _ => [eligibility_call token req (map asin final)]
  end.
Proof.
  unfold respond. rewrite trace_mbind, trace_check_seller_eligibility_exact.
  destruct (eval_check_seller_eligibility h token (req_seller_id req)
              (map asin final) (Py.upper (req_marketplace req))) as [d ->].
  cbn [trace ret]. apply app_nil_r.
Qed.

Lemma map_ASIN_imap d (final : list product_details) :
  map ASIN (imap (format_product d) final) = map asin final.
Proof.
  assert (H : forall (g : nat -> product_details -> formatted_product),
             (forall i p, ASIN (g i p) = asin p) ->
             map ASIN (imap g final) = map asin final).
  { induction final as [|p final IH]; intros g Hg; simpl; [reflexivity|].
    rewrite Hg. f_equal. apply IH. intros i q. apply Hg. }
  now apply H.
Qed.

Lemma eval_discover_ok h key req asins :
  eval h (discover key req) = Ok asins ->
  asins =
  match h (Keepa_product_finder key
             {| sellerIds := req_seller_id req; pageSize := MAX_PRODUCTS;
                category := Py.str <$> req_category_id req |}
             (Py.upper (req_marketplace req))) with
  | Returned (Some l) => take 30 l
  | _ => []
  end.
Proof.
  unfold discover. rewrite eval_try_except, eval_get_seller_asins.
  destruct (h _) as [[[|x l]|]|msg]; cbn; intros H;
    try discriminate H; injection H as <-; reflexivity.
Qed.

Lemma lookup_calls_are_lookups key m products c :
  In c (lookup_calls key m products) ->
  exists z, c = Keepa_category_lookup key z m.
Proof.
  unfold lookup_calls. rewrite in_flat_map. intros (p & _ & Hc).
  destruct (category_id p) as [z|]; [|destruct Hc].
  destruct (negb (z =? 0)); [|destruct Hc].
  destruct Hc as [<-|[]]. eauto.
Qed.

(** ** X1: the calls of a successful analysis *)

(** X1: with a non-empty eligibility token, a successful analysis issues, in
    this order, one catalog search, one batch detail query on the discovered
    identifiers, one category lookup per enriched record with a non-zero
    root category (also for records the strict filter drops), and last one
    eligibility POST whose identifier list is that of the returned
    products. *)
Theorem calls_in_stage_order h key token req res :
  token <> "" ->
  eval h (analyze_seller key token req) = Ok res ->
  exists asins products,
    eval h (discover key req) = Ok asins /\
    eval h (enrich key req asins) = Ok products /\
    trace h (analyze_seller key token req) =
      Keepa_product_finder key
        {| sellerIds := req_seller_id req; pageSize := 30;
           category := Py.str <$> req_category_id req |}
        (Py.upper (req_marketplace req))
      :: Keepa_query key asins (Py.upper (req_marketplace req)) 90
      :: (lookup_calls key (Py.upper (req_marketplace req)) products ++
          [eligibility_call token req (map ASIN (Products res))])%list.
Proof.
  intros Htoken Hres.
  destruct (analyze_seller_ok _ _ _ _ _ Hres) as (final & d & Hfinal & _ & ->).
  destruct (final_products_ok _ _ _ _ Hfinal)
    as (Hsup & asins & products & Hd & Hne & He & _ & _).
  exists asins, products. split; [exact Hd|]. split; [exact He|].
  rewrite trace_analyze_seller, Hfinal, trace_final_products, Hsup.
  cbn [negb]. rewrite trace_discover, Hd.
  destruct asins as [|a asins]; [contradiction|].
  rewrite trace_enrich, He, trace_respond. cbn [Products].
  rewrite map_ASIN_imap.
  destruct token; [contradiction|]. reflexivity.
Qed.

(** X1, at the sample run with category 100: two lookups although one
    record survives the filter. *)
Lemma calls_in_stage_order_witness :
  exists asins products,
    eval (two_products 200) (discover "K" (request "US" (Some 100))) = Ok asins /\
    eval (two_products 200) (enrich "K" (request "US" (Some 100)) asins) = Ok products /\
    length (trace (two_products 200)
              (analyze_seller "K" "T" (request "US" (Some 100)))) =
    (2 + length (lookup_calls "K" "US" products) + 1)%nat.
Proof.
  destruct (calls_in_stage_order (two_products 200) "K" "T"
              (request "US" (Some 100)) _ ltac:(discriminate) eq_refl)
    as (asins & products & Hd & He & Ht).
  exists asins, products. split; [exact Hd|]. split; [exact He|].
  change (Py.upper (req_marketplace (request "US" (Some 100)))) with "US" in Ht.
  rewrite Ht. cbn [length]. rewrite length_app. cbn [length]. lia.
Defined.

(** ** X2: the size of the batch query *)

(** X2: in every run, a batch detail query carries at least one and at most
    30 identifiers, and they are the first identifiers the catalog provider
    returned, in its order. *)
Theorem batch_query_bounded h key token req k asins d st :
  In (Keepa_query k asins d st) (trace h (analyze_seller key token req)) ->
  asins <> [] /\
  (length asins <= 30)%nat /\
  exists l,
    h (Keepa_product_finder key
         {| sellerIds := req_seller_id req; pageSize := 30;
            category := Py.str <$> req_category_id req |}
         (Py.upper (req_marketplace req))) = Returned (Some l) /\
    asins = take 30 l.
Proof.
  rewrite trace_analyze_seller, trace_final_products. intros Hin.
  apply in_app_or in Hin as [Hin|Hin].
  2: { destruct (eval h (final_products key req)) as [final|e]; [|destruct Hin].
       rewrite trace_respond in Hin.
       destruct token; [destruct Hin|]. destruct Hin as [Hc|[]]. discriminate Hc. }
  destruct (negb (marketplace_supported _)); [destruct Hin|].
  rewrite trace_discover in Hin.
  destruct Hin as [Hc|Hin]; [discriminate Hc|]. cbn [app] in Hin.
  destruct (eval h (discover key req)) as [[|a rest]|e] eqn:Hd;
    try (now destruct Hin).
  rewrite trace_enrich in Hin. destruct Hin as [Hc|Hin].
  - injection Hc as <- <- <- <-.
    apply eval_discover_ok in Hd. change MAX_PRODUCTS with 30 in Hd.
    destruct (h _) as [[l|]|msg]; try discriminate Hd.
    split; [discriminate|]. split.
    + rewrite Hd, length_take. lia.
    + exists l. split; [reflexivity | exact Hd].
  - cbn [app] in Hin.
    destruct (eval h (enrich key req (a :: rest))); [|destruct Hin].
    apply lookup_calls_are_lookups in Hin as [z Hz]. discriminate Hz.
Qed.

(** X2, at the sample run. *)
Lemma batch_query_bounded_witness :
  ["A1"; "A2"] <> [] /\
  (length ["A1"; "A2"] <= 30)%nat /\
  exists l,
    two_products 200
      (Keepa_product_finder "K"
         {| sellerIds := "S1"; pageSize := 30; category := None |} "US")
    = Returned (Some l) /\
    ["A1"; "A2"] = take 30 l.
Proof.
  apply (batch_query_bounded (two_products 200) "K" "T" (request "US" None)
           "K" ["A1"; "A2"] "US" 90).
  vm_compute. right. left. reflexivity.
Defined.

(** ** X3: the errors of the endpoint *)

Lemma final_products_raises h key req e :
  eval h (final_products key req) = Raise e ->
  exists st detail,
    e = HTTPException st detail /\ (st = 400 \/ st = 404 \/ st = 502).
Proof.
  rewrite eval_final_products.
  destruct (negb (marketplace_supported _)).
  { intros [= <-]. eauto 6. }
  destruct (eval h (discover key req)) as [[|a asins]|e'] eqn:Hd.
  - intros [= <-]. eauto 6.
  - destruct (eval h (enrich key req (a :: asins))) as [products|e'] eqn:He.
    + destruct (eval_strict_filter h key (requested_category_id_str req)
                  (Py.upper (req_marketplace req)) products) as (named & _ & ->).
      destruct (List.filter _ named);
        destruct (requested_category_id_str req); try discriminate.
      intros [= <-]. eauto 6.
    + intros [= <-]. apply enrich_raises in He as [d ->]. eauto 6.
  - intros [= <-]. apply discover_raises in Hd as [d ->]. eauto 6.
Qed.

(** X3: when the endpoint raises, the exception is an HTTPException of
    status 400, 404 or 502, and no eligibility POST was issued. *)
Theorem errors_are_http_without_eligibility_call h key token req e :
  eval h (analyze_seller key token req) = Raise e ->
  (exists st detail,
     e = HTTPException st detail /\ (st = 400 \/ st = 404 \/ st = 502)) /\
  Forall (fun c => ~ is_eligibility_call c)
         (trace h (analyze_seller key token req)).
Proof.
  rewrite eval_analyze_seller, trace_analyze_seller.
  destruct (eval h (final_products key req)) as [final|e'] eqn:Hf.
  { intros H. now apply respond_never_raises in H. }
  intros [= <-]. split; [now apply final_products_raises in Hf|].
  rewrite app_nil_r, trace_final_products.
  destruct (negb (marketplace_supported _)); [constructor|].
  rewrite trace_discover. constructor; [easy|]. cbn [app].
  destruct (eval h (discover key req)) as [[|a asins]|e''];
    [constructor| |constructor].
  rewrite trace_enrich. constructor; [easy|]. cbn [app].
  destruct (eval h (enrich key req (a :: asins))); [|constructor].
  apply List.Forall_forall. intros c Hc.
  apply lookup_calls_are_lookups in Hc as [z ->]. easy.
Qed.

(** X3, at the sample run whose filter matches nothing. *)
Lemma errors_are_http_without_eligibility_call_witness :
  (exists st detail,
     HTTPException 404 (detail_no_match (request "US" (Some 300))) =
       HTTPException st detail /\ (st = 400 \/ st = 404 \/ st = 502)) /\
  Forall (fun c => ~ is_eligibility_call c)
         (trace (two_products 200)
            (analyze_seller "K" "T" (request "US" (Some 300)))).
Proof.
  apply (errors_are_http_without_eligibility_call (two_products 200) "K" "T"
           (request "US" (Some 300))).
  vm_compute. reflexivity.
Defined.

(** ** X4: the products of a result *)

Lemma enrich_ok h key req a asins products :
  eval h (enrich key req (a :: asins)) = Ok products ->
  exists snaps,
    h (Keepa_query key (a :: asins) (Py.upper (req_marketplace req)) 90)
      = Returned snaps /\
    extract_all snaps = Ok products.
Proof.
  unfold enrich. rewrite eval_try_except, eval_get_product_details_batch.
  destruct (h _) as [snaps|msg]; [|discriminate].
  destruct (extract_all snaps) as [ds|e] eqn:Hx; [|discriminate].
  intros [= <-]. exists snaps. split; [reflexivity | exact Hx].
Qed.

Lemma extract_details_asin product :
  match extract_details product with
  | Ok (Some d) => snap_asin product = Some (asin d)
  | Ok None => snap_asin product = None
  | Raise _ => True
  end.
Proof.
  unfold extract_details. destruct (snap_asin product) as [a|]; [|reflexivity].
  now destruct (extract_price_cents _).
Qed.

(** The enrichment output is the identified snapshots, in order. *)
Lemma extract_all_asins snaps ds :
  extract_all snaps = Ok ds -> map asin ds = omap snap_asin snaps.
Proof.
  revert ds. induction snaps as [|x snaps IH]; simpl; intros ds.
  - now intros [= <-].
  - pose proof (extract_details_asin x) as Hx.
    destruct (extract_details x) as [d|]; [|discriminate]. cbn [rbind].
    destruct (extract_all snaps) as [ds'|]; [|discriminate]. cbn [rbind].
    specialize (IH ds' eq_refl).
    intros [= <-]. destruct d as [d|]; rewrite Hx; simpl; now rewrite IH.
Qed.

Lemma passes_filter_matches req p :
  passes_filter (requested_category_id_str req) p = category_matches req p.
Proof.
  unfold requested_category_id_str, passes_filter, category_matches.
  destruct (req_category_id req) as [c|]; [|reflexivity]. simpl.
  destruct (Z.eqb_spec c 0) as [->|Hc]; simpl; [reflexivity|].
  destruct (category_id p) as [z|]; simpl.
  - destruct (Z.eqb_spec z c) as [->|Hz].
    + now apply bool_decide_eq_true_2.
    + apply bool_decide_eq_false_2. intros H. now apply str_inj in H.
  - apply bool_decide_eq_false_2. intros H. symmetry in H.
    now apply str_not_NA in H.
Qed.

Lemma filter_named req products named :
  Forall2 (fun p q => exists n, q = set_category_name p n) products named ->
  map asin (List.filter (passes_filter (requested_category_id_str req)) named) =
  map asin (List.filter (category_matches req) products).
Proof.
  induction 1 as [|p q products named [n ->] _ IH]; simpl; [reflexivity|].
  rewrite passes_filter_set_category_name, passes_filter_matches.
  destruct (category_matches req p); simpl; now rewrite IH.
Qed.

Lemma sublist_map_filter {A B} (f : A -> B) (g : A -> bool) (l : list A) :
  sublist (map f (List.filter g l)) (map f l).
Proof.
  induction l as [|x l IH]; simpl; [constructor|].
  destruct (g x); simpl; now constructor.
Qed.

(** X4: the products of a successful analysis are exactly the records
    enriched from the snapshots the detail provider returned whose root
    category the request asks for, each once and in the provider's order;
    snapshots without identifier are left out, and the product count is the
    length of the list. *)
Theorem result_is_matching_snapshots_in_order h key token req res :
  eval h (analyze_seller key token req) = Ok res ->
  exists asins snaps products,
    h (Keepa_query key asins (Py.upper (req_marketplace req)) 90) = Returned snaps /\
    extract_all snaps = Ok products /\
    map asin products = omap snap_asin snaps /\
    map ASIN (Products res) =
      map asin (List.filter (category_matches req) products) /\
    sublist (map ASIN (Products res)) (omap snap_asin snaps) /\
    Total_Products res = Z.of_nat (length (Products res)).
Proof.
  intros Hres.
  destruct (analyze_seller_ok _ _ _ _ _ Hres) as (final & d & Hfinal & _ & ->).
  destruct (final_products_ok _ _ _ _ Hfinal)
    as (_ & asins & products & _ & Hne & He & Hf & _).
  destruct asins as [|a asins]; [contradiction|].
  destruct (enrich_ok _ _ _ _ _ _ He) as (snaps & Hq & Hx).
  destruct (eval_strict_filter h key (requested_category_id_str req)
              (Py.upper (req_marketplace req)) products) as (named & Hn & Hk).
  rewrite Hk in Hf. injection Hf as <-.
  pose proof (extract_all_asins _ _ Hx) as Ha.
  exists (a :: asins), snaps, products.
  split; [exact Hq|]. split; [exact Hx|]. split; [exact Ha|].
  cbn [Products Total_Products]. rewrite map_ASIN_imap, (filter_named _ _ _ Hn).
  split; [reflexivity|]. split; [|reflexivity].
  rewrite <- Ha. apply sublist_map_filter.
Qed.

(** X4, at the sample run with category 200. *)
Lemma result_is_matching_snapshots_in_order_witness :
  exists res,
    eval (two_products 200) (analyze_seller "K" "T" (request "US" (Some 200))) = Ok res /\
    map ASIN (Products res) = ["A2"] /\
    Total_Products res = 1.
Proof.
  eexists.
  destruct (result_is_matching_snapshots_in_order (two_products 200) "K" "T"
              (request "US" (Some 200)) _ eq_refl)
    as (asins & snaps & products & _ & _ & _ & _ & _ & Ht).
  split; [reflexivity|]. split; [reflexivity | exact Ht].
Defined.

(** ** X5: a failing provider *)

(** X5: for a supported marketplace, a failure of the catalog provider makes
    the endpoint raise status 502 with the provider's message after that one
    call; a failure of the detail provider makes it raise status 502 with the
    provider's message after the two calls: no category lookup and no
    eligibility POST follow. *)
Theorem provider_failure_is_gateway_error (h : handler) (key token : string)
    (req : SellerRequest) :
  marketplace_supported (Py.upper (req_marketplace req)) = true ->
  (forall msg,
     h (Keepa_product_finder key
          {| sellerIds := req_seller_id req; pageSize := 30;
             category := Py.str <$> req_category_id req |}
          (Py.upper (req_marketplace req))) = Failed msg ->
     eval h (analyze_seller key token req) =
       Raise (HTTPException 502
                ("Keepa ASIN Fetch Error: ASIN fetch error: " +:+ msg)) /\
     length (trace h (analyze_seller key token req)) = 1%nat) /\
  (forall asins msg,
     eval h (discover key req) = Ok asins -> asins <> [] ->
     h (Keepa_query key asins (Py.upper (req_marketplace req)) 90) = Failed msg ->
     eval h (analyze_seller key token req) =
       Raise (HTTPException 502
                ("Keepa Product Details Error: Product details error: " +:+ msg)) /\
     trace h (analyze_seller key token req) =
       (trace h (discover key req) ++
        [Keepa_query key asins (Py.upper (req_marketplace req)) 90])%list).
Proof.
  intros Hsup. split.
  - intros msg Hfail.
    assert (Hd : eval h (discover key req) =
                 Raise (HTTPException 502
                   ("Keepa ASIN Fetch Error: ASIN fetch error: " +:+ msg))).
    { unfold discover. rewrite eval_try_except, eval_get_seller_asins.
      change MAX_PRODUCTS with 30. rewrite Hfail. reflexivity. }
    rewrite eval_analyze_seller, trace_analyze_seller.
    rewrite eval_final_products, trace_final_products, Hsup, Hd.
    cbn [negb]. rewrite trace_discover. split; reflexivity.
  - intros asins msg Hd Hne Hfail.
    destruct asins as [|a asins]; [contradiction|].
    assert (He : eval h (enrich key req (a :: asins)) =
                 Raise (HTTPException 502
                   ("Keepa Product Details Error: Product details error: " +:+ msg))).
    { unfold enrich. rewrite eval_try_except, eval_get_product_details_batch.
      rewrite Hfail. reflexivity. }
    rewrite eval_analyze_seller, trace_analyze_seller.
    rewrite eval_final_products, trace_final_products, Hsup, Hd, He.
    cbn [negb]. rewrite trace_enrich, !app_nil_r. split; reflexivity.
Qed.

(** X5, at a catalog provider that times out. *)
Lemma provider_failure_is_gateway_error_witness :
  eval catalog_down (analyze_seller "K" "T" (request "US" None)) =
    Raise (HTTPException 502 "Keepa ASIN Fetch Error: ASIN fetch error: timeout") /\
  length (trace catalog_down (analyze_seller "K" "T" (request "US" None))) = 1%nat.
Proof.
  exact (proj1 (provider_failure_is_gateway_error catalog_down "K" "T"
                  (request "US" None) eq_refl) "timeout" eq_refl).
Defined.

(** ** X6: the entries of a result *)

Lemma extract_sales_rank_nonneg current_data :
  0 <= default 0 (extract_sales_rank current_data).
Proof.
  rewrite extract_sales_rank_cases.
  destruct (current_data !! 3%nat) as [v|]; simpl; [|lia].
  destruct (Z.ltb_spec 0 v); simpl; lia.
Qed.

Lemma extract_details_invariants product d :
  extract_details product = Ok (Some d) ->
  0 <= sales_rank d /\ current_price d <> "$0.00".
Proof.
  unfold extract_details. destruct (snap_asin product); [|discriminate].
  destruct (extract_price_cents _) as [cents|]; [|discriminate].
  cbn [rbind]. intros [= <-]. cbn [sales_rank current_price]. split.
  - apply extract_sales_rank_nonneg.
  - apply format_price_never_zero.
Qed.

Lemma extract_all_invariants snaps ds :
  extract_all snaps = Ok ds ->
  Forall (fun d => 0 <= sales_rank d /\ current_price d <> "$0.00") ds.
Proof.
  revert ds. induction snaps as [|x snaps IH]; simpl; intros ds.
  - intros [= <-]. constructor.
  - destruct (extract_details x) as [d|] eqn:Hx; [|discriminate]. cbn [rbind].
    destruct (extract_all snaps) as [ds'|]; [|discriminate]. cbn [rbind].
    specialize (IH ds' eq_refl). intros [= <-].
    destruct d as [d|]; [|exact IH].
    constructor; [now apply extract_details_invariants in Hx | exact IH].
Qed.

Lemma named_invariants (P : product_details -> Prop) products named :
  (forall p n, P p -> P (set_category_name p n)) ->
  Forall P products ->
  Forall2 (fun p q => exists n, q = set_category_name p n) products named ->
  Forall (fun q => P q /\ exists n, category_name q = Some n) named.
Proof.
  intros Hset Hall H2. induction H2 as [|p q products named [n ->] _ IH].
  - constructor.
  - inversion Hall; subst. constructor; [|now apply IH].
    split; [now apply Hset | now exists n].
Qed.

(** X6: every product entry of a successful analysis has a sales rank that
    is not negative (also when the provider's rank signal is), the fast
    velocity tag exactly when that rank is below 50000, a category name
    that is set, a price other than $0.00, and an index between 1 and the
    product count. *)
Theorem result_entries_well_formed h key token req res :
  eval h (analyze_seller key token req) = Ok res ->
  Forall (fun f =>
            0 <= SalesRank f /\
            (Velocity f = velocity_fast <-> SalesRank f < 50000) /\
            (exists n, Category f = Some n) /\
            Price f <> "$0.00" /\
            1 <= index f <= Total_Products res)
         (Products res).
Proof.
  intros Hres.
  destruct (analyze_seller_ok _ _ _ _ _ Hres) as (final & d & Hfinal & _ & ->).
  destruct (final_products_ok _ _ _ _ Hfinal)
    as (_ & asins & products & _ & Hne & He & Hf & _).
  destruct asins as [|a asins]; [contradiction|].
  destruct (enrich_ok _ _ _ _ _ _ He) as (snaps & _ & Hx).
  destruct (eval_strict_filter h key (requested_category_id_str req)
              (Py.upper (req_marketplace req)) products) as (named & Hn & Hk).
  rewrite Hk in Hf. injection Hf as <-.
  assert (Hinv : Forall (fun q => (0 <= sales_rank q /\ current_price q <> "$0.00") /\
                                 exists n, category_name q = Some n) named).
  { apply (named_invariants _ products named); [easy | | exact Hn].
    now apply (extract_all_invariants snaps). }
  cbn [Products Total_Products]. rewrite length_imap.
  apply Forall_lookup. intros i f Hi.
  rewrite list_lookup_imap in Hi.
  destruct (List.filter _ named !! i) as [p|] eqn:Hp; [|discriminate].
  injection Hi as <-.
  assert (Hin : In p named).
  { apply list_elem_of_lookup_2, list_elem_of_In in Hp.
    now apply List.filter_In in Hp as [Hp _]. }
  apply (proj1 (List.Forall_forall _ _) Hinv) in Hin as [[Hrank Hprice] Hname].
  apply lookup_lt_Some in Hp.
  cbn [SalesRank Velocity Category Price index format_product].
  repeat split; try easy; try lia.
  - destruct (Z.ltb_spec (sales_rank p) 50000); [easy|discriminate].
  - intros Hlt. destruct (Z.ltb_spec (sales_rank p) 50000); [easy|lia].
Qed.

(** X6, at the sample run. *)
Lemma result_entries_well_formed_witness :
  exists res,
    eval (two_products 200) (analyze_seller "K" "T" (request "US" None)) = Ok res /\
    Forall (fun f => 0 <= SalesRank f /\ 1 <= index f <= 2) (Products res).
Proof.
  eexists. split; [reflexivity|].
  pose proof (result_entries_well_formed (two_products 200) "K" "T"
                (request "US" None) _ eq_refl) as H.
  eapply List.Forall_impl; [|exact H].
  intros f (Hr & _ & _ & _ & Hi). split; [exact Hr | exact Hi].
Defined.

(** ** X7: the API Error status *)

Lemma scan_items_verdict items a v :
  scan_items items a = Ok (Some v) ->
  v = verdict_eligible \/ v = verdict_restricted.
Proof.
  induction items as [|[b e|t] items IH]; simpl; try discriminate.
  case_bool_decide; [|exact IH].
  intros [= <-]. destruct (default false e); auto.
Qed.

(** X7: the API Error status does not depend on the identifier: when the
    eligibility outcome gives it to one identifier, it gives it to every
    identifier. *)
Theorem api_error_is_uniform d a a' :
  status (parse_eligibility_result d a) = status_api_error ->
  status (parse_eligibility_result d a') = status_api_error.
Proof.
  unfold parse_eligibility_result.
  destruct (is_empty_dict d); [reflexivity|].
  unfold parse_eligibility_body.
  destruct (data d) as [[items|]|]; try easy.
  destruct (scan_items items a) as [[v|]|e] eqn:Hs; cbn [rbind default].
  - apply scan_items_verdict in Hs as [->| ->]; discriminate.
  - discriminate.
  - discriminate.
Qed.

(** X7, at the outcome of a 500 response. *)
Lemma api_error_is_uniform_witness :
  status (parse_eligibility_result
            {| success := Some false; data := None;
               error := Some "API Error 500"; details := Some "" |} "A2")
  = status_api_error.
Proof.
  exact (api_error_is_uniform
           {| success := Some false; data := None;
              error := Some "API Error 500"; details := Some "" |}
           "A1" "A2" eq_refl).
Defined.

(** ** X8: the dict of the eligibility client *)

(** X8: the dict the eligibility client returns is never empty; it carries
    the decoded body exactly when its success flag is true, and an error
    text exactly when the flag is false; the raw response text is kept only
    with an error. *)
Theorem eligibility_result_shape h token seller asins m d :
  eval h (check_seller_eligibility token seller asins m) = Ok d ->
  is_empty_dict d = false /\
  (success d = Some true \/ success d = Some false) /\
  (success d = Some true <-> exists body, data d = Some body) /\
  (success d = Some false <-> exists msg, error d = Some msg) /\
  (details d <> None -> success d = Some false).
Proof.
  unfold check_seller_eligibility. destruct token as [|c token].
  { intros [= <-]. cbn. repeat split; eauto; try discriminate;
      intros [? [=]]. }
  rewrite eval_try_except. simpl.
  destruct (h _) as [resp|msg]; simpl.
  - destruct (status_code resp =? 200); intros [= <-]; cbn;
      repeat split; eauto; try discriminate; try (intros [? [=]]); easy.
  - intros [= <-]. cbn. repeat split; eauto; try discriminate;
      intros [? [=]].
Qed.

(** X8, at the sample provider answering 404. *)
Lemma eligibility_result_shape_witness :
  is_empty_dict
    {| success := Some false; data := None;
       error := Some "API Error 404"; details := Some "" |} = false.
Proof.
  apply (eligibility_result_shape (two_products 404) "T" "S1" ["A1"] "US"
           {| success := Some false; data := None;
              error := Some "API Error 404"; details := Some "" |}).
  reflexivity.
Defined.

(** ** X9: start-up *)

(** X9: when the credentials load, both environment variables are set and
    non-empty, and every response stage run with the loaded token issues
    exactly one eligibility POST, authorised with that token, for the
    identifiers of the filtered records. *)
Theorem loaded_credentials_are_present getenv key token :
  load_credentials getenv = Ok (key, token) ->
  getenv "KEEPA_API_KEY" = Some key /\ key <> "" /\
  getenv "OPTISAGE_TOKEN" = Some token /\ token <> "" /\
  forall h req final,
    trace h (respond token req final) =
    [eligibility_call token req (map asin final)].
Proof.
  unfold load_credentials.
  destruct (getenv "KEEPA_API_KEY") as [[|c k]|]; try discriminate.
  destruct (getenv "OPTISAGE_TOKEN") as [[|c' t]|]; try discriminate.
  cbn. intros [= <- <-]. repeat split; try discriminate.
  intros h req final. now rewrite trace_respond.
Qed.

(** X9, at an environment that defines both variables. *)
Lemma loaded_credentials_are_present_witness :
  trace (two_products 200)
    (respond "T" (request "US" None) [default_details "A1" (CatId 100)]) =
  [eligibility_call "T" (request "US" None) ["A1"]].
Proof.
  apply (loaded_credentials_are_present
           (fun v => if String.eqb v "KEEPA_API_KEY" then Some "K" else Some "T")
           "K" "T" eq_refl).
Defined.

(** A missing or empty variable aborts the start-up. *)
Lemma load_credentials_missing getenv :
  Py.truthy_str (getenv "KEEPA_API_KEY") = false \/
  Py.truthy_str (getenv "OPTISAGE_TOKEN") = false ->
  exists msg, load_credentials getenv = Raise (RuntimeError msg).
Proof.
  unfold load_credentials. intros [H|H].
  - rewrite H. cbn. eauto.
  - destruct (Py.truthy_str (getenv "KEEPA_API_KEY")); cbn; [|eauto].
    rewrite H. cbn. eauto.
Qed.

(** ** X10: the eligibility POST *)

Lemma trace_final_products_no_post h key req :
  Forall (fun c => ~ is_eligibility_call c) (trace h (final_products key req)).
Proof.
  rewrite trace_final_products.
  destruct (negb (marketplace_supported _)); [constructor|].
  rewrite trace_discover. constructor; [easy|]. cbn [app].
  destruct (eval h (discover key req)) as [[|a asins]|e];
    [constructor| |constructor].
  rewrite trace_enrich. constructor; [easy|]. cbn [app].
  destruct (eval h (enrich key req (a :: asins))); [|constructor].
  apply List.Forall_forall. intros c Hc.
  apply lookup_calls_are_lookups in Hc as [z ->]. easy.
Qed.

Lemma marketplace_numeric_of_code code :
  In code marketplace_codes ->
  exists n, MARKETPLACE_NUMERIC !! code = Some n /\ In n [1; 3; 4; 5; 6; 7].
Proof.
  simpl. intros [<-|[<-|[<-|[<-|[<-|[<-|[]]]]]]]; eexists;
    (split; [vm_compute; reflexivity | simpl; tauto]).
Qed.

(** X10: an eligibility POST is issued only by a run that passed validation,
    discovery, enrichment and filtering; it is authorised with the non-empty
    token, has a timeout of 30, names the request's seller, carries the
    numeric code that the marketplace table gives the validated marketplace
    (the default code is never used), and lists the identifiers of the
    products the run returns. *)
Theorem eligibility_post_parameters h key token req u a p t :
  In (Requests_post u a p t) (trace h (analyze_seller key token req)) ->
  token <> "" /\
  a = "Bearer " +:+ token /\
  t = 30 /\
  amazon_seller_id p = req_seller_id req /\
  MARKETPLACE_NUMERIC !! Py.upper (req_marketplace req) = Some (marketplace_id p) /\
  In (marketplace_id p) [1; 3; 4; 5; 6; 7] /\
  exists res,
    eval h (analyze_seller key token req) = Ok res /\
    asins p = map ASIN (Products res).
Proof.
  rewrite trace_analyze_seller. intros Hin.
  apply in_app_or in Hin as [Hin|Hin].
  { pose proof (trace_final_products_no_post h key req) as Hno.
    apply (proj1 (List.Forall_forall _ _) Hno) in Hin. now destruct Hin. }
  destruct (eval h (final_products key req)) as [final|e] eqn:Hf;
    [|destruct Hin].
  rewrite trace_respond in Hin.
  destruct token as [|c token]; [destruct Hin|].
  destruct Hin as [Hc|[]]. unfold eligibility_call in Hc.
  injection Hc as <- <- <- <-.
  destruct (final_products_ok _ _ _ _ Hf) as (Hsup & _).
  apply marketplace_supported_codes, marketplace_numeric_of_code in Hsup
    as (n & Hn & Hin).
  cbn [amazon_seller_id marketplace_id asins]. rewrite Hn. cbn [default].
  repeat split; try easy.
  destruct (eval_respond h (String c token) req final) as (d & _ & Hr).
  eexists. rewrite eval_analyze_seller, Hf. split; [exact Hr|].
  cbn [Products]. now rewrite map_ASIN_imap.
Qed.

(** X10, at the sample run with category 100. *)
Lemma eligibility_post_parameters_witness :
  MARKETPLACE_NUMERIC !! "US" = Some 1 /\
  exists res,
    eval (two_products 200) (analyze_seller "K" "T" (request "us" (Some 100))) = Ok res /\
    ["A1"] = map ASIN (Products res).
Proof.
  destruct (eligibility_post_parameters (two_products 200) "K" "T"
              (request "us" (Some 100))
              "https://api-staging.optisage.ai/api/go-compare/seller-eligibility"
              "Bearer T"
              {| amazon_seller_id := "S1"; marketplace_id := 1; asins := ["A1"] |}
              30)
    as (_ & _ & _ & _ & Hm & _ & Hres).
  - vm_compute. do 4 right. left. reflexivity.
  - split; [exact Hm | exact Hres].
Defined.

(** ** X12: the image URL *)

Lemma split_comma_first_app seg rest :
  comma_free seg = true ->
  Py.split_comma_first (seg +:+ "," +:+ rest) = seg.
Proof.
  induction seg as [|c seg IH]; [reflexivity|].
  rewrite append_cons. cbn [comma_free Py.split_comma_first].
  destruct (Ascii.eqb c ","); [discriminate|]. cbn [negb andb].
  intros H. now rewrite IH.
Qed.

Lemma split_comma_first_whole csv :
  comma_free csv = true -> Py.split_comma_first csv = csv.
Proof.
  induction csv as [|c csv IH]; [reflexivity|].
  cbn [comma_free Py.split_comma_first].
  destruct (Ascii.eqb c ","); [discriminate|]. cbn [negb andb].
  intros H. now rewrite IH.
Qed.

(** X12: a non-empty direct image is returned as it is; without one, the
    image URL is the CDN prefix followed by the first entry of the
    comma-separated image list (the whole text when it holds no comma); with
    neither, the image is unknown. *)
Theorem image_url_from_first_entry product :
  (forall img, snap_image product = Some img -> img <> "" ->
     extract_image_url product = Some img) /\
  (forall seg rest,
     Py.truthy_str (snap_image product) = false ->
     snap_imagesCSV product = Some (seg +:+ "," +:+ rest) ->
     comma_free seg = true ->
     extract_image_url product =
       Some ("https://m.media-amazon.com/images/I/" +:+ seg)) /\
  (forall csv,
     Py.truthy_str (snap_image product) = false ->
     snap_imagesCSV product = Some csv -> csv <> "" ->
     comma_free csv = true ->
     extract_image_url product =
       Some ("https://m.media-amazon.com/images/I/" +:+ csv)) /\
  (Py.truthy_str (snap_image product) = false ->
   Py.truthy_str (snap_imagesCSV product) = false ->
   extract_image_url product = None).
Proof.
  unfold extract_image_url. repeat split.
  - intros img -> Hne. destruct img; [contradiction|reflexivity].
  - intros seg rest -> -> Hfree.
    assert (Ht : Py.truthy_str (Some (seg +:+ "," +:+ rest)) = true).
    { destruct seg; reflexivity. }
    rewrite Ht. cbn [fmap option_fmap option_map].
    now rewrite split_comma_first_app.
  - intros csv -> -> Hne Hfree.
    assert (Ht : Py.truthy_str (Some csv) = true).
    { destruct csv; [contradiction|reflexivity]. }
    rewrite Ht. cbn [fmap option_fmap option_map].
    now rewrite split_comma_first_whole.
  - intros -> ->. reflexivity.
Qed.

(** X12, at a snapshot with two image entries. *)
Lemma image_url_from_first_entry_witness :
  extract_image_url
    {| snap_asin := Some "A1"; snap_stats := None; snap_image := None;
       snap_imagesCSV := Some "a.jpg,b.jpg"; snap_rating := None;
       snap_reviewCount := None; snap_title := None;
       snap_brand := None; snap_rootCategory := None |}
  = Some "https://m.media-amazon.com/images/I/a.jpg".
Proof.
  apply (proj1 (proj2 (image_url_from_first_entry
           {| snap_asin := Some "A1"; snap_stats := None; snap_image := None;
              snap_imagesCSV := Some "a.jpg,b.jpg"; snap_rating := None;
              snap_reviewCount := None; snap_title := None;
              snap_brand := None; snap_rootCategory := None |}))
           "a.jpg" "b.jpg"); reflexivity.
Defined.

(** ** X13: digit grouping *)

Lemma uint_chars d : all_chars is_decimal_char (NilEmpty.string_of_uint d) = true.
Proof. induction d; simpl; auto. Qed.

Lemma nilzero_uint_chars d :
  all_chars is_decimal_char (NilZero.string_of_uint d) = true.
Proof. destruct d; [reflexivity | exact (uint_chars _) ..]. Qed.

Lemma str_chars z : all_chars is_decimal_char (Py.str z) = true.
Proof.
  unfold Py.str, NilZero.string_of_int.
  destruct (Z.to_int z) as [d|d]; [apply nilzero_uint_chars|].
  cbn [all_chars]. now rewrite nilzero_uint_chars.
Qed.

Lemma decimal_char_not_comma c :
  is_decimal_char c = true -> Ascii.eqb c "," = false.
Proof. destruct c as [[] [] [] [] [] [] [] []]; vm_compute; congruence. Qed.

Lemma decimal_char_not_dot c :
  is_decimal_char c = true -> Ascii.eqb c "." = false.
Proof. destruct c as [[] [] [] [] [] [] [] []]; vm_compute; congruence. Qed.

Lemma group3_rev_step a b c d rest :
  Py.group3_rev (a :: b :: c :: d :: rest) =
  a :: b :: c :: ","%char :: Py.group3_rev (d :: rest).
Proof. reflexivity. Qed.

Lemma filter_all {A} (f : A -> bool) (l : list A) :
  forallb f l = true -> List.filter f l = l.
Proof.
  induction l as [|x l IH]; simpl; [reflexivity|].
  rewrite andb_true_iff. intros [-> Hl]. now rewrite IH.
Qed.

Lemma filter_group3_rev n l :
  (length l <= n)%nat -> forallb not_comma l = true ->
  List.filter not_comma (Py.group3_rev l) = l.
Proof.
  revert l. induction n as [|n IH]; intros l Hlen Hall.
  { destruct l; [reflexivity | simpl in Hlen; lia]. }
  destruct l as [|a [|b [|c [|d rest]]]]; try (now apply filter_all).
  rewrite group3_rev_step.
  simpl in Hall. rewrite !andb_true_iff in Hall.
  destruct Hall as (Ha & Hb & Hc & Hd & Hrest).
  cbn [List.filter]. rewrite Ha, Hb, Hc.
  rewrite (eq_refl : not_comma ","%char = false).
  do 3 f_equal. apply IH.
  - simpl in *. lia.
  - simpl. now rewrite Hd, Hrest.
Qed.

Lemma remove_commas_of_list l :
  remove_commas (string_of_list_ascii l) =
  string_of_list_ascii (List.filter not_comma l).
Proof.
  induction l as [|c l IH]; [reflexivity|]. simpl. unfold not_comma at 1.
  destruct (Ascii.eqb c ","); simpl; now rewrite IH.
Qed.

Lemma filter_rev_list {A} (f : A -> bool) (l : list A) :
  List.filter f (rev l) = rev (List.filter f l).
Proof.
  induction l as [|x l IH]; [reflexivity|]. simpl.
  rewrite List.filter_app, IH. simpl. destruct (f x); simpl;
    [reflexivity | apply app_nil_r].
Qed.

Lemma all_chars_forallb f s :
  all_chars f s = forallb f (list_ascii_of_string s).
Proof. induction s as [|c s IH]; simpl; now rewrite ?IH. Qed.

Lemma forallb_rev {A} (f : A -> bool) (l : list A) :
  forallb f (rev l) = forallb f l.
Proof.
  induction l as [|x l IH]; [reflexivity|]. simpl.
  rewrite forallb_app, IH. simpl. rewrite andb_true_r. apply andb_comm.
Qed.

Lemma str_sign_abs z : Py.str z = Py.sign z +:+ Py.str (Z.abs z).
Proof. destruct z; reflexivity. Qed.

Lemma remove_commas_sign z s :
  remove_commas (Py.sign z +:+ s) = Py.sign z +:+ remove_commas s.
Proof. unfold Py.sign. destruct (z <? 0); reflexivity. Qed.

Lemma format_grouped_round_trip z :
  remove_commas (Py.format_grouped z) = Py.str z.
Proof.
  unfold Py.format_grouped.
  rewrite remove_commas_sign, remove_commas_of_list, filter_rev_list.
  set (L := list_ascii_of_string (Py.str (Z.abs z))).
  assert (HL : forallb not_comma L = true).
  { unfold L. rewrite <- all_chars_forallb.
    pose proof (str_chars (Z.abs z)) as H. revert H.
    generalize (Py.str (Z.abs z)). intros s.
    induction s as [|c s IH]; simpl; [reflexivity|].
    rewrite !andb_true_iff. intros [Hc Hs]. split; [|now apply IH].
    unfold not_comma. now rewrite decimal_char_not_comma. }
  rewrite (filter_group3_rev (length (rev L)) (rev L)); [|lia|].
  - rewrite rev_involutive. unfold L.
    rewrite string_of_list_ascii_of_string. symmetry. apply str_sign_abs.
  - now rewrite forallb_rev.
Qed.

(** X13: the review count is shown consistently: the rating text of a
    record embeds the count grouped by thousands, and removing the grouping
    commas from it gives the text of the entry's Reviews field, the decimal
    rendering of the snapshot's review count (0 when the snapshot has none). *)
Theorem review_count_shown_consistently product d e idx :
  extract_details product = Ok (Some d) ->
  rating_display d =
    Py.format_tenths_1f (rating_value d) +:+ "/5 (" +:+
    Py.format_grouped (review_count d) +:+ " reviews)" /\
  remove_commas (Py.format_grouped (review_count d)) =
    Reviews (format_product e idx d) /\
  Reviews (format_product e idx d) =
    Py.str (default 0 (snap_reviewCount product)).
Proof.
  unfold extract_details. destruct (snap_asin product); [|discriminate].
  destruct (extract_price_cents _); [|discriminate].
  cbn [rbind]. intros [= <-].
  cbn [rating_display review_count rating_value Reviews format_product].
  split; [reflexivity|]. split; [apply format_grouped_round_trip | reflexivity].
Qed.

(** X13, at a snapshot with 1234567 reviews. *)
Lemma review_count_shown_consistently_witness :
  remove_commas (Py.format_grouped 1234567) = "1234567".
Proof.
  destruct (review_count_shown_consistently
              {| snap_asin := Some "A1"; snap_stats := None; snap_image := None;
                 snap_imagesCSV := None; snap_rating := Some 45;
                 snap_reviewCount := Some 1234567; snap_title := None;
                 snap_brand := None; snap_rootCategory := None |}
              _ (success_data BodyOther) 0 eq_refl) as (_ & H & _).
  exact H.
Defined.

(** ** X14: distinct prices *)

Lemma split_at_dot s1 t1 s2 t2 :
  all_chars is_decimal_char s1 = true ->
  all_chars is_decimal_char s2 = true ->
  s1 +:+ "." +:+ t1 = s2 +:+ "." +:+ t2 ->
  s1 = s2 /\ t1 = t2.
Proof.
  revert s2. induction s1 as [|c s1 IH]; intros [|c' s2]; simpl.
  - intros _ _. rewrite !append_nil_l, !append_cons, !append_nil_l.
    now intros [= ->].
  - rewrite andb_true_iff. intros _ [Hc _].
    rewrite append_nil_l, !append_cons. intros [= <- _].
    apply decimal_char_not_dot in Hc. discriminate Hc.
  - rewrite andb_true_iff. intros [Hc _] _.
    rewrite append_nil_l, !append_cons. intros [= -> _].
    apply decimal_char_not_dot in Hc. discriminate Hc.
  - rewrite !andb_true_iff, !append_cons. intros [_ H1] [_ H2] [= <- H].
    destruct (IH s2 H1 H2 H) as [-> ->]. easy.
Qed.

Lemma pad2_inj r1 r2 :
  0 <= r1 < 100 -> 0 <= r2 < 100 -> Py.pad2 r1 = Py.pad2 r2 -> r1 = r2.
Proof.
  intros H1 H2 Heq.
  assert (Hall : forallb (fun a => forallb (fun b =>
            implb (String.eqb (Py.pad2 a) (Py.pad2 b)) (a =? b)) hundred) hundred
          = true) by (vm_compute; reflexivity).
  assert (Hin : forall r, 0 <= r < 100 -> In r hundred).
  { intros r Hr. unfold hundred. rewrite <- (Z2Nat.id r) by lia.
    apply in_map, in_seq. lia. }
  rewrite forallb_forall in Hall. specialize (Hall r1 (Hin r1 H1)).
  rewrite forallb_forall in Hall. specialize (Hall r2 (Hin r2 H2)).
  rewrite Heq, String.eqb_refl in Hall. simpl in Hall.
  now apply Z.eqb_eq.
Qed.

Lemma format_cents_2f_inj c1 c2 :
  0 < c1 -> 0 < c2 -> Py.format_cents_2f c1 = Py.format_cents_2f c2 -> c1 = c2.
Proof.
  intros H1 H2. unfold Py.format_cents_2f, Py.sign.
  destruct (Z.ltb_spec c1 0); [lia|]. destruct (Z.ltb_spec c2 0); [lia|].
  rewrite !Z.abs_eq, !append_nil_l by lia. intros Heq.
  apply split_at_dot in Heq as [Hq Hr]; try apply str_chars.
  apply str_inj in Hq. apply pad2_inj in Hr.
  - rewrite (Z.div_mod c1 100), (Z.div_mod c2 100) by lia. now rewrite Hq, Hr.
  - apply Z.mod_pos_bound. lia.
  - apply Z.mod_pos_bound. lia.
Qed.

(** X14: two different strictly positive prices (in cents, below 2^52, the
    range in which the float quotient prints exactly) are formatted as two
    different price texts. *)
Theorem distinct_prices_print_differently c1 c2 :
  0 < c1 < 2 ^ 52 -> 0 < c2 < 2 ^ 52 -> c1 <> c2 ->
  format_price (price_of_cents c1) <> format_price (price_of_cents c2).
Proof.
  intros [H1 _] [H2 _] Hne. unfold price_of_cents.
  destruct (Z.ltb_spec 0 c1); [|lia]. destruct (Z.ltb_spec 0 c2); [|lia].
  unfold format_price. rewrite !append_cons, !append_nil_l.
  intros [= Heq]. now apply format_cents_2f_inj in Heq.
Qed.

(** X14, at 19.99 and 20.00. *)
Lemma distinct_prices_print_differently_witness :
  format_price (price_of_cents 1999) <> format_price (price_of_cents 2000).
Proof.
  apply (distinct_prices_print_differently 1999 2000); lia.
Defined.

(** ** X15: the marketplace echo *)

(** X15: the marketplace echoed by a successful analysis is one of the six
    upper-case codes, and the requested marketplace is a spelling of that
    code up to letter case (each letter the capital, the small letter or,
    for S, the long s). *)
Theorem marketplace_echo_is_canonical h key token req res :
  eval h (analyze_seller key token req) = Ok res ->
  In (Marketplace res) marketplace_codes /\
  In (req_marketplace req) (case_variants (Marketplace res)).
Proof.
  intros Hres.
  destruct (analyze_seller_ok _ _ _ _ _ Hres) as (final & d & Hfinal & _ & ->).
  destruct (final_products_ok _ _ _ _ Hfinal) as (Hsup & _).
  apply marketplace_supported_codes in Hsup.
  cbn [Marketplace]. split; [exact Hsup|]. now apply upper_code_variant.
Qed.

(** X15, at a lower-case request. *)
Lemma marketplace_echo_is_canonical_witness :
  exists res,
    eval (two_products 200) (analyze_seller "K" "T" (request "jp" None)) = Ok res /\
    Marketplace res = "JP" /\
    In (Marketplace res) marketplace_codes.
Proof.
  eexists. split; [reflexivity|]. split; [reflexivity|].
  apply (marketplace_echo_is_canonical (two_products 200) "K" "T"
           (request "jp" None) _ eq_refl).
Defined.

(** ** X16: category names *)

(** X16: resolving a category name never raises: without a root category, or
    with root category 0, the name is Unknown and no call is made; if the
    lookup fails the name is Category Lookup Failed; otherwise it is the
    name the provider's answer gives under the decimal text of the id, or
    Unknown Category when the entry or its name is missing.  The endpoint's
    own handler around the lookup is never taken. *)
Theorem category_name_resolution h key m cid :
  eval h (resolve_category_name key m cid) =
  Ok (match cid with
      | CatNA => "Unknown"
      | CatId z =>
          if z =? 0 then "Unknown"
          else match h (Keepa_category_lookup key z m) with
               | Failed _ => "Category Lookup Failed"
               | Returned categories =>
                   match categories !! Py.str z with
                   | Some {| name := Some n |} => n
                   | _ => "Unknown Category"
                   end
               end
      end) /\
  (forall z e, eval h (get_category_name key z m) <> Raise e).
Proof.
  split.
  - destruct cid as [z|]; cbn [resolve_category_name]; [|reflexivity].
    destruct (z =? 0); cbn [negb]; [reflexivity|].
    rewrite eval_try_except. unfold get_category_name.
    rewrite eval_try_except. simpl.
    destruct (h _) as [categories|msg]; simpl; [|reflexivity].
    destruct (categories !! Py.str z) as [[[n|]]|]; reflexivity.
  - intros z e. destruct (eval_get_category_name h key z m) as [n ->].
    discriminate.
Qed.

(** ** X17: an empty catalog *)

(** X17: for a supported marketplace, a catalog answer that is no list at
    all or an empty list makes the endpoint raise the discovery not-found
    after that one call. *)
Theorem empty_catalog_is_not_found (h : handler) (key token : string)
    (req : SellerRequest) :
  marketplace_supported (Py.upper (req_marketplace req)) = true ->
  h (Keepa_product_finder key
       {| sellerIds := req_seller_id req; pageSize := 30;
          category := Py.str <$> req_category_id req |}
       (Py.upper (req_marketplace req))) = Returned None \/
  h (Keepa_product_finder key
       {| sellerIds := req_seller_id req; pageSize := 30;
          category := Py.str <$> req_category_id req |}
       (Py.upper (req_marketplace req))) = Returned (Some []) ->
  eval h (analyze_seller key token req) =
    Raise (HTTPException 404 (detail_no_asins req)) /\
  length (trace h (analyze_seller key token req)) = 1%nat.
Proof.
  intros Hsup Hempty.
  assert (Hd : eval h (discover key req) = Ok []).
  { unfold discover. rewrite eval_try_except, eval_get_seller_asins.
    change MAX_PRODUCTS with 30. destruct Hempty as [-> | ->]; reflexivity. }
  rewrite eval_analyze_seller, trace_analyze_seller.
  rewrite eval_final_products, trace_final_products, Hsup, Hd.
  cbn [negb]. rewrite trace_discover. split; reflexivity.
Qed.

(** X17, at a catalog provider answering with no list. *)
Lemma empty_catalog_is_not_found_witness :
  eval catalog_null (analyze_seller "K" "T" (request "US" (Some 7))) =
    Raise (HTTPException 404 "No ASINs found for this seller in Category ID 7.") /\
  length (trace catalog_null (analyze_seller "K" "T" (request "US" (Some 7)))) = 1%nat.
Proof.
  apply (empty_catalog_is_not_found catalog_null "K" "T" (request "US" (Some 7))
           eq_refl).
  left. reflexivity.
Defined.
